(** * TESTB: the Verilator test-bench wrapper of sim/testb.h

    A shallow embedding of the [TESTB<VA>] class template: the clock
    stepping protocol of [tick()], the life cycle of the trace sink and
    the sticky [done()] flag.  The model [VA] and the trace class are
    external to the header; the calls the wrapper makes on them are
    recorded, in program order, in a history of events. *)

From Stdlib Require Import ZArith NArith List String Bool Lia.
Import ListNotations.
Local Open Scope Z_scope.

Set Implicit Arguments.

(** ** Machine integers *)

(** [m_time_ps] is a [uint64_t]; unsigned arithmetic wraps modulo 2^64. *)
Definition UINT64_MOD : Z := 2 ^ 64.

Definition wrap64 (z : Z) : Z := z mod UINT64_MOD.
Arguments wrap64 : simpl never.

Definition is_uint64 (z : Z) : Prop := 0 <= z < UINT64_MOD.

(** ** The model under test *)

(** The Verilated design: its clock and reset inputs, which the wrapper
    writes, and everything else it holds (other ports, registers). *)
Record Core (St : Type) : Type := mkCore {
  i_clk : Z;
  i_reset : Z;
  signals : St
}.

(** What the template parameter [VA] has to provide: [new VA] and
    [VA::eval()].  An evaluation reads the whole design, rewrites
    everything but the inputs the wrapper drives, and tells whether the
    design executed [$finish] on the way. *)
Class Model (St : Type) : Type := {
  core_new : Core St;
  core_eval : Core St -> St * bool
}.

(** ** The trace sink *)

(** The [TRACECLASS] object behind [m_trace]: the depth it was registered
    with, its declared resolution and unit, and the file it writes. *)
Record TRACECLASS : Type := mkTrace {
  tr_levels : option Z;
  tr_resolution : option string;
  tr_unit : option string;
  tr_file : option string
}.

Definition trace_fresh : TRACECLASS :=
  {| tr_levels := None; tr_resolution := None;
     tr_unit := None; tr_file := None |}.

(** ** Calls on the collaborators, in program order *)

Inductive Event : Type :=
| EvTraceEverOn (on : bool)
| EvCoreNew
| EvSetClk (v : Z)
| EvSetReset (v : Z)
| EvEval (clk reset : Z)
| EvCoreTrace (levels : Z)
| EvTraceNew
| EvSetTimeResolution (u : string)
| EvSetTimeUnit (u : string)
| EvOpen (vcdname : string)
| EvDump (t : Z)
| EvFlush
| EvClose
| EvTraceDelete.

(** A call made on the trace sink (or creating or destroying it). *)
Definition is_trace_event (e : Event) : bool :=
  match e with
  | EvCoreTrace _ | EvTraceNew | EvSetTimeResolution _ | EvSetTimeUnit _
  | EvOpen _ | EvDump _ | EvFlush | EvClose | EvTraceDelete => true
  | _ => false
  end.

Definition trace_events (h : list Event) : list Event :=
  filter is_trace_event h.

(** The time stamps of the samples written, oldest first. *)
Fixpoint dumps (h : list Event) : list Z :=
  match h with
  | [] => []
  | EvDump t :: h' => t :: dumps h'
  | _ :: h' => dumps h'
  end.

(** The values the wrapper wrote to the inputs of the model, and the
    evaluations it asked for. *)
Definition is_port_write (e : Event) : bool :=
  match e with EvSetClk _ | EvSetReset _ => true | _ => false end.

Definition port_writes (h : list Event) : list Event :=
  filter is_port_write h.

Fixpoint evals (h : list Event) : list (Z * Z) :=
  match h with
  | [] => []
  | EvEval c r :: h' => (c, r) :: evals h'
  | _ :: h' => evals h'
  end.

Fixpoint strictly_increasing (l : list Z) : bool :=
  match l with
  | [] => true
  | x :: l' =>
      match l' with
      | [] => true
      | y :: _ => (x <? y) && strictly_increasing l'
      end
  end.

(** ** The wrapper object and the process around it *)

Record TESTB (St : Type) : Type := mkTESTB {
  m_core : Core St;
  m_changed : bool;
  m_trace : option TRACECLASS;
  m_done : bool;
  m_paused_trace : bool;
  m_time_ps : Z
}.

(** The wrapper, the process-wide [Verilated] flags and the history. *)
Record Sim (St : Type) : Type := mkSim {
  self : TESTB St;
  gotFinish : bool;
  traceEverOn : bool;
  history : list Event
}.

(** ** A state monad with one fault: following a null pointer *)

Inductive result (A : Type) : Type :=
| Ok (a : A)
| NullDeref.
Arguments NullDeref {A}.

Definition M (St A : Type) : Type := Sim St -> result (A * Sim St).

Definition ret {St A} (a : A) : M St A := fun w => Ok (a, w).

Definition bind {St A B} (m : M St A) (k : A -> M St B) : M St B :=
  fun w => match m w with
           | Ok (a, w') => k a w'
           | NullDeref => NullDeref
           end.

Declare Scope tb_scope.
Delimit Scope tb_scope with tb.
Notation "x <- m ;; k" := (bind m (fun x => k))
  (at level 61, m at next level, right associativity) : tb_scope.
Notation "m ;; k" := (bind m (fun _ => k))
  (at level 61, right associativity) : tb_scope.
Local Open Scope tb_scope.

Definition fault {St A} : M St A := fun _ => NullDeref.

Definition when {St} (b : bool) (m : M St unit) : M St unit :=
  if b then m else ret tt.

Section Driver.

Context {St : Type} {VA : Model St}.

(** *** Field access *)

Definition read {A} (f : TESTB St -> A) : M St A :=
  fun w => Ok (f (self w), w).

Definition update (f : TESTB St -> TESTB St) : M St unit :=
  fun w => Ok (tt, {| self := f (self w); gotFinish := gotFinish w;
                      traceEverOn := traceEverOn w; history := history w |}).

Definition emit (e : Event) : M St unit :=
  fun w => Ok (tt, {| self := self w; gotFinish := gotFinish w;
                      traceEverOn := traceEverOn w;
                      history := history w ++ [e] |}).

Definition set_m_core (c : Core St) (t : TESTB St) : TESTB St :=
  {| m_core := c; m_changed := m_changed t; m_trace := m_trace t;
     m_done := m_done t; m_paused_trace := m_paused_trace t;
     m_time_ps := m_time_ps t |}.

Definition set_m_changed (b : bool) (t : TESTB St) : TESTB St :=
  {| m_core := m_core t; m_changed := b; m_trace := m_trace t;
     m_done := m_done t; m_paused_trace := m_paused_trace t;
     m_time_ps := m_time_ps t |}.

Definition set_m_trace (p : option TRACECLASS) (t : TESTB St) : TESTB St :=
  {| m_core := m_core t; m_changed := m_changed t; m_trace := p;
     m_done := m_done t; m_paused_trace := m_paused_trace t;
     m_time_ps := m_time_ps t |}.

Definition set_m_done (b : bool) (t : TESTB St) : TESTB St :=
  {| m_core := m_core t; m_changed := m_changed t; m_trace := m_trace t;
     m_done := b; m_paused_trace := m_paused_trace t;
     m_time_ps := m_time_ps t |}.

Definition set_m_paused_trace (b : bool) (t : TESTB St) : TESTB St :=
  {| m_core := m_core t; m_changed := m_changed t; m_trace := m_trace t;
     m_done := m_done t; m_paused_trace := b;
     m_time_ps := m_time_ps t |}.

Definition set_m_time_ps (z : Z) (t : TESTB St) : TESTB St :=
  {| m_core := m_core t; m_changed := m_changed t; m_trace := m_trace t;
     m_done := m_done t; m_paused_trace := m_paused_trace t;
     m_time_ps := z |}.

(** *** Calls on the model *)

(** [m_core->i_clk = v] *)
Definition core_set_clk (v : Z) : M St unit :=
  update (fun t => set_m_core
    {| i_clk := v; i_reset := i_reset (m_core t);
       signals := signals (m_core t) |} t) ;;
  emit (EvSetClk v).

(** [m_core->i_reset = v] *)
Definition core_set_reset (v : Z) : M St unit :=
  update (fun t => set_m_core
    {| i_clk := i_clk (m_core t); i_reset := v;
       signals := signals (m_core t) |} t) ;;
  emit (EvSetReset v).

(** [m_core->eval()]; a [$finish] raises [Verilated::gotFinish()]. *)
Definition core_do_eval : M St unit :=
  fun w =>
    let c := m_core (self w) in
    let r := core_eval c in
    Ok (tt, {| self := set_m_core
                 {| i_clk := i_clk c; i_reset := i_reset c;
                    signals := fst r |} (self w);
               gotFinish := gotFinish w || snd r;
               traceEverOn := traceEverOn w;
               history := history w ++ [EvEval (i_clk c) (i_reset c)] |}).

(** [Verilated::gotFinish()] *)
Definition verilated_gotFinish : M St bool :=
  fun w => Ok (gotFinish w, w).

(** *** Calls through [m_trace] *)

(** [m_trace->...]: the pointer is followed, a null pointer is a fault. *)
Definition with_trace (f : TRACECLASS -> TRACECLASS) (e : Event)
  : M St unit :=
  p <- read (@m_trace St) ;;
  match p with
  | None => fault
  | Some tr => update (set_m_trace (Some (f tr))) ;; emit e
  end.

Definition trace_dump (t : Z) : M St unit :=
  with_trace (fun tr => tr) (EvDump t).

Definition trace_flush : M St unit :=
  with_trace (fun tr => tr) EvFlush.

Definition trace_close : M St unit :=
  with_trace (fun tr =>
    {| tr_levels := tr_levels tr; tr_resolution := tr_resolution tr;
       tr_unit := tr_unit tr; tr_file := None |}) EvClose.

Definition trace_open (vcdname : string) : M St unit :=
  with_trace (fun tr =>
    {| tr_levels := tr_levels tr; tr_resolution := tr_resolution tr;
       tr_unit := tr_unit tr; tr_file := Some vcdname |}) (EvOpen vcdname).

Definition trace_set_time_resolution (u : string) : M St unit :=
  with_trace (fun tr =>
    {| tr_levels := tr_levels tr; tr_resolution := Some u;
       tr_unit := tr_unit tr; tr_file := tr_file tr |})
    (EvSetTimeResolution u).

Definition trace_set_time_unit (u : string) : M St unit :=
  with_trace (fun tr =>
    {| tr_levels := tr_levels tr; tr_resolution := tr_resolution tr;
       tr_unit := Some u; tr_file := tr_file tr |}) (EvSetTimeUnit u).

(** [m_core->trace(m_trace, levels)] *)
Definition core_trace (levels : Z) : M St unit :=
  with_trace (fun tr =>
    {| tr_levels := Some levels; tr_resolution := tr_resolution tr;
       tr_unit := tr_unit tr; tr_file := tr_file tr |})
    (EvCoreTrace levels).

(** [m_trace && !m_paused_trace] *)
Definition tracing : M St bool :=
  p <- read (@m_trace St) ;;
  q <- read (@m_paused_trace St) ;;
  ret (match p with Some _ => true | None => false end && negb q).

(** *** The methods of TESTB *)

(** [TESTB(void)], in a process where no design has finished yet.
    [m_changed] is not initialised by the constructor: its first value
    is whatever the storage holds. *)
Definition TESTB_new (changed0 : bool) : Sim St :=
  {| self := {| m_core := core_new; m_changed := changed0;
                m_trace := None; m_done := false;
                m_paused_trace := false; m_time_ps := 0 |};
     gotFinish := false;
     traceEverOn := true;
     history := [EvCoreNew; EvTraceEverOn true] |}.

Definition opentrace (vcdname : string) (depth : Z) : M St unit :=
  p <- read (@m_trace St) ;;
  match p with
  | Some _ => ret tt
  | None =>
      update (set_m_trace (Some trace_fresh)) ;; emit EvTraceNew ;;
      core_trace 99 ;;
      trace_set_time_resolution "ps" ;;
      trace_set_time_unit "ps" ;;
      trace_open vcdname ;;
      update (set_m_paused_trace false)
  end.

Definition trace (vcdname : string) : M St unit :=
  opentrace vcdname 99.

Definition pausetrace (pause : bool) : M St bool :=
  update (set_m_paused_trace pause) ;;
  read (@m_paused_trace St).

Definition pausetrace_query : M St bool :=
  read (@m_paused_trace St).

Definition closetrace : M St unit :=
  p <- read (@m_trace St) ;;
  match p with
  | Some _ =>
      trace_close ;;
      emit EvTraceDelete ;;
      update (set_m_trace None)
  | None => ret tt
  end.

Definition eval : M St unit := core_do_eval.

Definition sim_clk_tick : M St unit :=
  update (set_m_changed false).

Definition tick : M St unit :=
  eval ;;
  b <- tracing ;;
  t <- read (@m_time_ps St) ;;
  when b (trace_dump (wrap64 (t + 6944))) ;;
  t <- read (@m_time_ps St) ;;
  update (set_m_time_ps (wrap64 (t + 13888))) ;;
  core_set_clk 1 ;;
  eval ;;
  b <- tracing ;;
  t <- read (@m_time_ps St) ;;
  when b (trace_dump t ;; trace_flush) ;;
  core_set_clk 0 ;;
  t <- read (@m_time_ps St) ;;
  update (set_m_time_ps (wrap64 (t + 13889))) ;;
  eval ;;
  b <- tracing ;;
  t <- read (@m_time_ps St) ;;
  when b (trace_dump t) ;;
  sim_clk_tick.

Definition done : M St bool :=
  d <- read (@m_done St) ;;
  if d then ret true
  else
    f <- verilated_gotFinish ;;
    when f (update (set_m_done true)) ;;
    read (@m_done St).

Definition reset : M St unit :=
  core_set_reset 1 ;;
  tick ;;
  core_set_reset 0.

End Driver.

(** ** Programs of the caller *)

(** What a test program does with the wrapper between construction and
    destruction.  [OpTicks n] is [n] consecutive calls of [tick()].  The
    two last operations are not methods: the test program writing other
    inputs of the design, and anybody calling [Verilated::gotFinish(b)]. *)
Inductive Op (St : Type) : Type :=
| OpOpentrace (vcdname : string) (depth : Z)
| OpTrace (vcdname : string)
| OpPausetrace (pause : bool)
| OpPausetraceQuery
| OpClosetrace
| OpEval
| OpTicks (n : N)
| OpDone
| OpReset
| OpPoke (f : St -> St)
| OpGotFinish (b : bool).
Arguments OpOpentrace {St}.
Arguments OpTrace {St}.
Arguments OpPausetrace {St}.
Arguments OpPausetraceQuery {St}.
Arguments OpClosetrace {St}.
Arguments OpEval {St}.
Arguments OpTicks {St}.
Arguments OpDone {St}.
Arguments OpReset {St}.
Arguments OpGotFinish {St}.

Section Programs.

Context {St : Type} {VA : Model St}.

Definition ticks (n : N) : M St unit :=
  N.iter n (fun k => tick ;; k) (ret tt).

Definition poke (f : St -> St) : M St unit :=
  update (fun t => set_m_core
    {| i_clk := i_clk (m_core t); i_reset := i_reset (m_core t);
       signals := f (signals (m_core t)) |} t).

Definition set_gotFinish (b : bool) : M St unit :=
  fun w => Ok (tt, {| self := self w; gotFinish := b;
                      traceEverOn := traceEverOn w;
                      history := history w |}).

Definition exec (o : Op St) : M St unit :=
  match o with
  | OpOpentrace vcdname depth => opentrace vcdname depth
  | OpTrace vcdname => trace vcdname
  | OpPausetrace pause => pausetrace pause ;; ret tt
  | OpPausetraceQuery => pausetrace_query ;; ret tt
  | OpClosetrace => closetrace
  | OpEval => eval
  | OpTicks n => ticks n
  | OpDone => done ;; ret tt
  | OpReset => reset
  | OpPoke f => poke f
  | OpGotFinish b => set_gotFinish b
  end.

Fixpoint run (ops : list (Op St)) : M St unit :=
  match ops with
  | [] => ret tt
  | o :: ops' => exec o ;; run ops'
  end.

(** The number of times [tick()] is entered: [reset()] enters it once. *)
Fixpoint tick_calls (ops : list (Op St)) : N :=
  match ops with
  | [] => 0%N
  | OpTicks n :: ops' => (n + tick_calls ops')%N
  | OpReset :: ops' => (1 + tick_calls ops')%N
  | _ :: ops' => tick_calls ops'
  end.

End Programs.

(** The constants of [tick()]: the two half periods and the offset of
    the sample taken before the rising edge. *)
Definition H1 : Z := 13888.
Definition H2 : Z := 13889.
Definition Q : Z := 6944.
Definition PERIOD : Z := H1 + H2.

(** A design with no state that never finishes. *)
#[local] Instance idle : Model unit :=
  {| core_new := {| i_clk := 0; i_reset := 0; signals := tt |};
     core_eval := fun _ => (tt, false) |}.

(** The guard of every trace write of [tick()], as a function of the
    object. *)
Definition is_tracing {St : Type} (t : TESTB St) : bool :=
  match m_trace t with Some _ => true | None => false end
  && negb (m_paused_trace t).

(** The calls one [tick()] makes, given the guard, the inputs and the
    time it starts from. *)
Definition tick_events (tr : bool) (clk rst t : Z) : list Event :=
  if tr then
    [EvEval clk rst; EvDump (wrap64 (t + 6944));
     EvSetClk 1; EvEval 1 rst; EvDump (wrap64 (t + 13888)); EvFlush;
     EvSetClk 0; EvEval 0 rst; EvDump (wrap64 (wrap64 (t + 13888) + 13889))]
  else
    [EvEval clk rst; EvSetClk 1; EvEval 1 rst; EvSetClk 0; EvEval 0 rst].

(** The sink [opentrace] leaves, and the calls it makes. *)
Definition trace_opened (vcdname : string) : TRACECLASS :=
  {| tr_levels := Some 99; tr_resolution := Some "ps"%string;
     tr_unit := Some "ps"%string; tr_file := Some vcdname |}.

Definition opentrace_events (vcdname : string) : list Event :=
  [EvTraceNew; EvCoreTrace 99; EvSetTimeResolution "ps";
   EvSetTimeUnit "ps"; EvOpen vcdname].

(** ** The destructor *)

(** What is left of the process once the wrapper is gone: the
    [Verilated] flags, the calls made, and the sink [m_trace] pointed
    to, which the destructor does not delete.  The model is deleted with
    the wrapper. *)
Record Remains : Type := mkRemains {
  rem_gotFinish : bool;
  rem_traceEverOn : bool;
  rem_history : list Event;
  rem_trace : option TRACECLASS
}.

(** [~TESTB(void)] *)
Definition TESTB_delete {St : Type} (w : Sim St) : result Remains :=
  match (p <- read (@m_trace St) ;;
         match p with
         | Some _ => trace_close
         | None => ret tt
         end) w with
  | Ok (_, w') =>
      Ok {| rem_gotFinish := gotFinish w';
            rem_traceEverOn := traceEverOn w';
            rem_history := history w';
            rem_trace := m_trace (self w') |}
  | NullDeref => NullDeref
  end.

(** ** The life cycle of a sink, as its calls show it *)

Inductive SinkState : Type :=
| SinkNone
| SinkNew
| SinkRegistered
| SinkResolution
| SinkUnit
| SinkOpen
| SinkClosed.

(** One call: a sink is created when there is none, registered with the
    model, given its resolution and unit, opened, written and flushed
    while open, closed, and deleted once closed.  Any other order is
    refused.  Calls on the model do not count. *)
Definition sink_step (s : SinkState) (e : Event) : option SinkState :=
  match e with
  | EvTraceEverOn _ | EvCoreNew | EvSetClk _ | EvSetReset _ | EvEval _ _ =>
      Some s
  | EvTraceNew =>
      match s with SinkNone => Some SinkNew | _ => None end
  | EvCoreTrace _ =>
      match s with SinkNew => Some SinkRegistered | _ => None end
  | EvSetTimeResolution _ =>
      match s with SinkRegistered => Some SinkResolution | _ => None end
  | EvSetTimeUnit _ =>
      match s with SinkResolution => Some SinkUnit | _ => None end
  | EvOpen _ =>
      match s with SinkUnit => Some SinkOpen | _ => None end
  | EvDump _ | EvFlush =>
      match s with SinkOpen => Some SinkOpen | _ => None end
  | EvClose =>
      match s with SinkOpen => Some SinkClosed | _ => None end
  | EvTraceDelete =>
      match s with SinkClosed => Some SinkNone | _ => None end
  end.

Fixpoint sink_run (s : SinkState) (h : list Event) : option SinkState :=
  match h with
  | [] => Some s
  | e :: h' =>
      match sink_step s e with
      | Some s' => sink_run s' h'
      | None => None
      end
  end.

(** Where the wrapper's pointer says the sink is. *)
Definition sink_of {St : Type} (w : Sim St) : SinkState :=
  match m_trace (self w) with
  | Some _ => SinkOpen
  | None => SinkNone
  end.

Definition is_flush (e : Event) : bool :=
  match e with EvFlush => true | _ => false end.

Definition flushes (h : list Event) : nat :=
  List.length (filter is_flush h).

(** ** Programs without their trace calls *)

Definition is_trace_op {St : Type} (o : Op St) : bool :=
  match o with
  | OpOpentrace _ _ | OpTrace _ | OpPausetrace _ | OpPausetraceQuery
  | OpClosetrace => true
  | _ => false
  end.

Definition strip_trace_ops {St : Type} (ops : list (Op St))
  : list (Op St) :=
  filter (fun o => negb (is_trace_op o)) ops.

(** Two processes in which the simulation stands at the same point: the
    same model, time and flags, and the same inputs written and
    evaluations made so far. *)
Definition same_simulation {St : Type} (w1 w2 : Sim St) : Prop :=
  m_core (self w1) = m_core (self w2)
  /\ m_time_ps (self w1) = m_time_ps (self w2)
  /\ m_done (self w1) = m_done (self w2)
  /\ m_changed (self w1) = m_changed (self w2)
  /\ gotFinish w1 = gotFinish w2
  /\ evals (history w1) = evals (history w2)
  /\ port_writes (history w1) = port_writes (history w2).

(** [Verilated::gotFinish(true)] is not called by the program. *)
Definition raises_finish {St : Type} (o : Op St) : bool :=
  match o with
  | OpGotFinish true => true
  | _ => false
  end.

(** ** Programs as sequences of single steps *)

Inductive Atom (St : Type) : Type :=
| ATick
| ASetReset (v : Z)
| AOpentrace (vcdname : string) (depth : Z)
| APausetrace (pause : bool)
| APausetraceQuery
| AClosetrace
| AEval
| ADone
| APoke (f : St -> St)
| AGotFinish (b : bool).
Arguments ATick {St}.
Arguments ASetReset {St}.
Arguments AOpentrace {St}.
Arguments APausetrace {St}.
Arguments APausetraceQuery {St}.
Arguments AClosetrace {St}.
Arguments AEval {St}.
Arguments ADone {St}.
Arguments AGotFinish {St}.

Section Atoms.

Context {St : Type} {VA : Model St}.

Definition exec_atom (a : Atom St) : M St unit :=
  match a with
  | ATick => tick
  | ASetReset v => core_set_reset v
  | AOpentrace vcdname depth => opentrace vcdname depth
  | APausetrace pause => pausetrace pause ;; ret tt
  | APausetraceQuery => pausetrace_query ;; ret tt
  | AClosetrace => closetrace
  | AEval => eval
  | ADone => done ;; ret tt
  | APoke f => poke f
  | AGotFinish b => set_gotFinish b
  end.

Fixpoint run_atoms (l : list (Atom St)) : M St unit :=
  match l with
  | [] => ret tt
  | a :: l' => exec_atom a ;; run_atoms l'
  end.

Definition atoms (o : Op St) : list (Atom St) :=
  match o with
  | OpOpentrace vcdname depth => [AOpentrace vcdname depth]
  | OpTrace vcdname => [AOpentrace vcdname 99]
  | OpPausetrace pause => [APausetrace pause]
  | OpPausetraceQuery => [APausetraceQuery]
  | OpClosetrace => [AClosetrace]
  | OpEval => [AEval]
  | OpTicks n => repeat ATick (N.to_nat n)
  | OpDone => [ADone]
  | OpReset => [ASetReset 1; ATick; ASetReset 0]
  | OpPoke f => [APoke f]
  | OpGotFinish b => [AGotFinish b]
  end.

Definition is_tick_atom (a : Atom St) : bool :=
  match a with ATick => true | _ => false end.

Definition tick_atoms (l : list (Atom St)) : nat :=
  List.length (filter is_tick_atom l).

End Atoms.

(** ** What the wrapper keeps *)

(** The calls on the sink so far follow its life cycle, the pointer
    tells where the cycle stands, and a sink the wrapper holds is
    registered at depth 99, counts in ps and has its file open. *)
Definition sink_invariant {St : Type} (w : Sim St) : Prop :=
  sink_run SinkNone (history w) = Some (sink_of w)
  /\ forall tr, m_trace (self w) = Some tr ->
       exists vcdname, tr = trace_opened vcdname.

(** The samples so far are in strictly increasing order and none is
    later than the current time. *)
Definition dump_invariant {St : Type} (w : Sim St) : Prop :=
  0 <= m_time_ps (self w)
  /\ strictly_increasing (dumps (history w)) = true
  /\ Forall (fun d => 0 < d <= m_time_ps (self w)) (dumps (history w)).

(** A design that never executes [$finish]. *)
Definition never_finishes {St : Type} (VA : Model St) : Prop :=
  forall c : Core St, snd (core_eval c) = false.

(** The evaluations of [k] ticks in a row, as (clock, reset) pairs: the
    first tick starts with the clock as the caller left it, the others
    with the clock low. *)
Fixpoint ticks_evals (clk rst : Z) (k : nat) : list (Z * Z) :=
  match k with
  | O => []
  | S k' => (clk, rst) :: (1, rst) :: (0, rst) :: ticks_evals 0 rst k'
  end.

(** * Effects of the methods *)

Section Effects.

Context {St : Type} {VA : Model St}.

(** *** Arithmetic of [uint64_t] *)

Lemma UINT64_MOD_pos : 0 < UINT64_MOD.
Proof. reflexivity. Qed.

Lemma wrap64_range (z : Z) : is_uint64 (wrap64 z).
Proof. unfold is_uint64, wrap64. apply Z.mod_pos_bound, UINT64_MOD_pos. Qed.

Lemma wrap64_small (z : Z) : is_uint64 z -> wrap64 z = z.
Proof. unfold is_uint64, wrap64. intros Hz. now apply Z.mod_small. Qed.

Lemma wrap64_add_l (a b : Z) : wrap64 (wrap64 a + b) = wrap64 (a + b).
Proof. unfold wrap64. apply Zplus_mod_idemp_l. Qed.

Lemma wrap64_period (t : Z) :
  wrap64 (wrap64 (t + 13888) + 13889) = wrap64 (t + PERIOD).
Proof.
  rewrite wrap64_add_l. unfold PERIOD, H1, H2. f_equal. lia.
Qed.

(** *** One tick *)

Ltac open_sim w :=
  destruct w as [[?c ?ch [?tr|] ?d [|] ?t] ?gf ?teo ?h].

Ltac history_eq :=
  cbn; repeat rewrite <- app_assoc; cbn; reflexivity.

Lemma tick_effect (w : Sim St) :
  exists w', tick w = Ok (tt, w')
    /\ m_time_ps (self w')
       = wrap64 (wrap64 (m_time_ps (self w) + 13888) + 13889)
    /\ m_trace (self w') = m_trace (self w)
    /\ m_paused_trace (self w') = m_paused_trace (self w)
    /\ m_done (self w') = m_done (self w)
    /\ m_changed (self w') = false
    /\ i_clk (m_core (self w')) = 0
    /\ i_reset (m_core (self w')) = i_reset (m_core (self w))
    /\ traceEverOn w' = traceEverOn w
    /\ history w'
       = history w ++ tick_events (is_tracing (self w))
                        (i_clk (m_core (self w)))
                        (i_reset (m_core (self w)))
                        (m_time_ps (self w)).
Proof.
  open_sim w.
  all: eexists; split; [cbn; reflexivity|]; cbn.
  all: repeat apply conj; try history_eq.
Qed.

(** No call of [tick()] follows a null [m_trace]. *)
Lemma tick_total (w : Sim St) : exists w', tick w = Ok (tt, w').
Proof. destruct (tick_effect w) as (w' & E & _). now exists w'. Qed.

Lemma trace_events_app (h1 h2 : list Event) :
  trace_events (h1 ++ h2) = trace_events h1 ++ trace_events h2.
Proof. apply filter_app. Qed.

Lemma dumps_app (h1 h2 : list Event) :
  dumps (h1 ++ h2) = dumps h1 ++ dumps h2.
Proof.
  induction h1 as [|e h1 IH]; [reflexivity|].
  destruct e; cbn; rewrite ?IH; reflexivity.
Qed.

(** *** Many ticks *)

Lemma ticks_succ (n : N) (w : Sim St) :
  ticks (N.succ n) w = (tick ;; ticks n) w.
Proof. unfold ticks. now rewrite N.iter_succ. Qed.

Lemma ticks_effect (n : N) :
  forall w : Sim St,
    is_uint64 (m_time_ps (self w)) ->
    exists w', ticks n w = Ok (tt, w')
      /\ m_time_ps (self w')
         = wrap64 (m_time_ps (self w) + Z.of_N n * PERIOD)
      /\ m_trace (self w') = m_trace (self w)
      /\ m_paused_trace (self w') = m_paused_trace (self w)
      /\ m_done (self w') = m_done (self w)
      /\ (exists evs, history w' = history w ++ evs
            /\ (is_tracing (self w) = false -> trace_events evs = [])).
Proof.
  induction n as [|n IH] using N.peano_ind; intros w Hw.
  - exists w. cbn. rewrite Z.add_0_r, wrap64_small by assumption.
    repeat apply conj; try reflexivity.
    exists []. now rewrite app_nil_r.
  - destruct (tick_effect w) as (w1 & E1 & T1 & R1 & P1 & D1 & _ & _ & _ & _ & X1).
    destruct (IH w1) as (w2 & E2 & T2 & R2 & P2 & D2 & evs & X2 & Q2).
    { rewrite T1. apply wrap64_range. }
    exists w2. rewrite ticks_succ. unfold bind. rewrite E1.
    split; [exact E2|].
    repeat apply conj; try congruence.
    + rewrite T2, T1, wrap64_period, wrap64_add_l. f_equal. lia.
    + eexists. split.
      * rewrite X2, X1, <- app_assoc. reflexivity.
      * intros Hq. rewrite trace_events_app, Hq. cbn.
        apply Q2. unfold is_tracing in *. now rewrite R1, P1.
Qed.

(** *** The other methods *)

Lemma opentrace_absent (vcdname : string) (depth : Z) (w : Sim St) :
  m_trace (self w) = None ->
  opentrace vcdname depth w
  = Ok (tt, {| self := set_m_paused_trace false
                 (set_m_trace (Some (trace_opened vcdname)) (self w));
               gotFinish := gotFinish w;
               traceEverOn := traceEverOn w;
               history := history w ++ opentrace_events vcdname |}).
Proof.
  open_sim w; cbn; intros E; try discriminate.
  all: repeat rewrite <- app_assoc; reflexivity.
Qed.

Lemma opentrace_present (vcdname : string) (depth : Z) (w : Sim St) :
  m_trace (self w) <> None ->
  opentrace vcdname depth w = Ok (tt, w).
Proof. open_sim w; cbn; intros E; try reflexivity; now destruct E. Qed.

Lemma closetrace_present (w : Sim St) (tr : TRACECLASS) :
  m_trace (self w) = Some tr ->
  closetrace w
  = Ok (tt, {| self := set_m_trace None (self w);
               gotFinish := gotFinish w;
               traceEverOn := traceEverOn w;
               history := history w ++ [EvClose; EvTraceDelete] |}).
Proof.
  open_sim w; cbn; intros E; try discriminate.
  all: repeat rewrite <- app_assoc; reflexivity.
Qed.

Lemma closetrace_absent (w : Sim St) :
  m_trace (self w) = None -> closetrace w = Ok (tt, w).
Proof. open_sim w; cbn; intros E; try discriminate; reflexivity. Qed.

Lemma pausetrace_effect (pause : bool) (w : Sim St) :
  pausetrace pause w
  = Ok (pause, {| self := set_m_paused_trace pause (self w);
                  gotFinish := gotFinish w;
                  traceEverOn := traceEverOn w;
                  history := history w |}).
Proof. reflexivity. Qed.

Lemma eval_effect (w : Sim St) :
  eval w
  = Ok (tt, {| self := set_m_core
                 {| i_clk := i_clk (m_core (self w));
                    i_reset := i_reset (m_core (self w));
                    signals := fst (core_eval (m_core (self w))) |} (self w);
               gotFinish := gotFinish w || snd (core_eval (m_core (self w)));
               traceEverOn := traceEverOn w;
               history := history w
                 ++ [EvEval (i_clk (m_core (self w)))
                            (i_reset (m_core (self w)))] |}).
Proof. reflexivity. Qed.

Lemma done_effect (w : Sim St) :
  done w
  = Ok (m_done (self w) || gotFinish w,
        {| self := set_m_done (m_done (self w) || gotFinish w) (self w);
           gotFinish := gotFinish w;
           traceEverOn := traceEverOn w;
           history := history w |}).
Proof.
  destruct w as [[c ch tr d p t] [|] teo h]; destruct d; reflexivity.
Qed.

Lemma core_set_reset_effect (v : Z) (w : Sim St) :
  core_set_reset v w
  = Ok (tt, {| self := set_m_core
                 {| i_clk := i_clk (m_core (self w)); i_reset := v;
                    signals := signals (m_core (self w)) |} (self w);
               gotFinish := gotFinish w;
               traceEverOn := traceEverOn w;
               history := history w ++ [EvSetReset v] |}).
Proof. reflexivity. Qed.

Lemma reset_effect (w : Sim St) :
  exists w', reset w = Ok (tt, w')
    /\ m_time_ps (self w')
       = wrap64 (wrap64 (m_time_ps (self w) + 13888) + 13889)
    /\ m_trace (self w') = m_trace (self w)
    /\ m_paused_trace (self w') = m_paused_trace (self w)
    /\ m_done (self w') = m_done (self w)
    /\ i_clk (m_core (self w')) = 0
    /\ i_reset (m_core (self w')) = 0
    /\ signals (m_core (self w'))
       = (let s1 := fst (core_eval
                      {| i_clk := i_clk (m_core (self w)); i_reset := 1;
                         signals := signals (m_core (self w)) |}) in
          let s2 := fst (core_eval
                      {| i_clk := 1; i_reset := 1; signals := s1 |}) in
          fst (core_eval {| i_clk := 0; i_reset := 1; signals := s2 |}))
    /\ history w'
       = history w
         ++ [EvSetReset 1]
         ++ tick_events (is_tracing (self w))
              (i_clk (m_core (self w))) 1 (m_time_ps (self w))
         ++ [EvSetReset 0].
Proof.
  open_sim w.
  all: eexists; split; [cbn; reflexivity|]; cbn.
  all: repeat apply conj; try history_eq.
Qed.

(** *** Programs *)

Lemma run_app (a b : list (Op St)) (w : Sim St) :
  run (a ++ b) w = (run a ;; run b) w.
Proof.
  revert w. induction a as [|o a IH]; intros w; cbn.
  - reflexivity.
  - unfold bind. destruct (exec o w) as [[[] w1]|]; [|reflexivity].
    rewrite IH. reflexivity.
Qed.

Lemma tick_calls_app (a b : list (Op St)) :
  tick_calls (a ++ b) = (tick_calls a + tick_calls b)%N.
Proof.
  induction a as [|o a IH]; [reflexivity|].
  destruct o; cbn [app tick_calls]; rewrite IH; lia.
Qed.

(** Every operation returns, advances the time by one period for each
    [tick()] it enters, and never lowers [m_done]. *)
Lemma exec_effect (o : Op St) (w : Sim St) :
  is_uint64 (m_time_ps (self w)) ->
  exists w', exec o w = Ok (tt, w')
    /\ m_time_ps (self w')
       = wrap64 (m_time_ps (self w) + Z.of_N (tick_calls [o]) * PERIOD)
    /\ (m_done (self w) = true -> m_done (self w') = true).
Proof.
  intros Hw.
  assert (Hkeep : wrap64 (m_time_ps (self w) + 0) = m_time_ps (self w)).
  { rewrite Z.add_0_r. now apply wrap64_small. }
  destruct o; cbn [exec tick_calls].
  - destruct (m_trace (self w)) eqn:E.
    + rewrite opentrace_present by congruence. eauto.
    + rewrite opentrace_absent by assumption. eexists. split; [reflexivity|].
      cbn. now rewrite Hkeep.
  - unfold trace. destruct (m_trace (self w)) eqn:E.
    + rewrite opentrace_present by congruence. eauto.
    + rewrite opentrace_absent by assumption. eexists. split; [reflexivity|].
      cbn. now rewrite Hkeep.
  - eexists. split; [reflexivity|]. cbn. now rewrite Hkeep.
  - eexists. split; [reflexivity|]. cbn. now rewrite Hkeep.
  - destruct (m_trace (self w)) eqn:E.
    + erewrite closetrace_present by eassumption.
      eexists. split; [reflexivity|]. cbn. now rewrite Hkeep.
    + rewrite closetrace_absent by assumption. eauto.
  - eexists. split; [reflexivity|]. cbn. now rewrite Hkeep.
  - destruct (ticks_effect n w Hw) as (w' & E & T & _ & _ & D & _).
    exists w'. rewrite N.add_0_r. repeat split; try assumption. congruence.
  - unfold bind. rewrite done_effect. eexists. split; [reflexivity|].
    cbn. rewrite Hkeep. split; [reflexivity|]. now intros ->.
  - destruct (reset_effect w) as (w' & E & T & _ & _ & D & _).
    exists w'. rewrite wrap64_period in T.
    assert (Z.of_N (1 + 0) * PERIOD = PERIOD) as -> by reflexivity.
    repeat split; try assumption. congruence.
  - eexists. split; [reflexivity|]. cbn. now rewrite Hkeep.
  - eexists. split; [reflexivity|]. cbn. now rewrite Hkeep.
Qed.

Lemma run_effect (ops : list (Op St)) :
  forall w : Sim St,
    is_uint64 (m_time_ps (self w)) ->
    exists w', run ops w = Ok (tt, w')
      /\ m_time_ps (self w')
         = wrap64 (m_time_ps (self w) + Z.of_N (tick_calls ops) * PERIOD)
      /\ (m_done (self w) = true -> m_done (self w') = true).
Proof.
  induction ops as [|o ops IH]; intros w Hw.
  - exists w. cbn. rewrite Z.add_0_r, wrap64_small by assumption. auto.
  - destruct (exec_effect o w Hw) as (w1 & E1 & T1 & D1).
    destruct (IH w1) as (w2 & E2 & T2 & D2).
    { rewrite T1. apply wrap64_range. }
    exists w2. cbn [run]. unfold bind. rewrite E1.
    split; [exact E2|]. split; [|auto].
    rewrite T2, T1, wrap64_add_l. f_equal.
    change (o :: ops) with ([o] ++ ops). rewrite tick_calls_app. lia.
Qed.

(** What many ticks keep, whatever [m_time_ps] holds. *)
Lemma ticks_frame (n : N) :
  forall w : Sim St,
    exists w', ticks n w = Ok (tt, w')
      /\ m_trace (self w') = m_trace (self w)
      /\ m_paused_trace (self w') = m_paused_trace (self w)
      /\ m_done (self w') = m_done (self w).
Proof.
  induction n as [|n IH] using N.peano_ind; intros w.
  - exists w. cbn. auto.
  - destruct (tick_effect w) as (w1 & E1 & _ & R1 & P1 & D1 & _).
    destruct (IH w1) as (w2 & E2 & R2 & P2 & D2).
    exists w2. rewrite ticks_succ. unfold bind. rewrite E1.
    repeat apply conj; congruence.
Qed.

Lemma exec_done (o : Op St) (w : Sim St) :
  exists w', exec o w = Ok (tt, w')
    /\ (m_done (self w) = true -> m_done (self w') = true).
Proof.
  destruct o; cbn [exec].
  - destruct (m_trace (self w)) eqn:E.
    + rewrite opentrace_present by congruence. eauto.
    + rewrite opentrace_absent by assumption. eauto.
  - unfold trace. destruct (m_trace (self w)) eqn:E.
    + rewrite opentrace_present by congruence. eauto.
    + rewrite opentrace_absent by assumption. eauto.
  - eexists. split; [reflexivity|]. auto.
  - eexists. split; [reflexivity|]. auto.
  - destruct (m_trace (self w)) eqn:E.
    + erewrite closetrace_present by eassumption. eauto.
    + rewrite closetrace_absent by assumption. eauto.
  - eexists. split; [reflexivity|]. auto.
  - destruct (ticks_frame n w) as (w' & E & _ & _ & D).
    exists w'. split; [assumption|]. congruence.
  - unfold bind. rewrite done_effect. eexists. split; [reflexivity|].
    cbn. now intros ->.
  - destruct (reset_effect w) as (w' & E & _ & _ & _ & D & _).
    exists w'. split; [assumption|]. congruence.
  - eexists. split; [reflexivity|]. auto.
  - eexists. split; [reflexivity|]. auto.
Qed.

Lemma run_done (ops : list (Op St)) :
  forall w : Sim St,
    exists w', run ops w = Ok (tt, w')
      /\ (m_done (self w) = true -> m_done (self w') = true).
Proof.
  induction ops as [|o ops IH]; intros w.
  - exists w. cbn. auto.
  - destruct (exec_done o w) as (w1 & E1 & D1).
    destruct (IH w1) as (w2 & E2 & D2).
    exists w2. cbn [run]. unfold bind. rewrite E1. auto.
Qed.

(** The samples of one traced tick. *)
Lemma tick_dumps (w : Sim St) :
  is_tracing (self w) = true ->
  exists w', tick w = Ok (tt, w')
    /\ is_tracing (self w') = true
    /\ m_time_ps (self w')
       = wrap64 (wrap64 (m_time_ps (self w) + H1) + H2)
    /\ dumps (history w')
       = dumps (history w)
         ++ [wrap64 (m_time_ps (self w) + Q);
             wrap64 (m_time_ps (self w) + H1);
             wrap64 (wrap64 (m_time_ps (self w) + H1) + H2)].
Proof.
  intros Tr.
  destruct (tick_effect w) as (w' & E & T & R & P & _ & _ & _ & _ & _ & X).
  exists w'. repeat apply conj; try assumption.
  - unfold is_tracing in *. now rewrite R, P.
  - rewrite X, Tr, dumps_app. reflexivity.
Qed.

(** A trace opened on a new wrapper, then [n] ticks. *)
Lemma traced_ticks (changed0 : bool) (vcdname : string) (depth : Z) (n : N) :
  exists w, run [OpOpentrace vcdname depth; OpTicks n] (TESTB_new changed0)
            = Ok (tt, w)
    /\ is_tracing (self w) = true
    /\ m_time_ps (self w) = wrap64 (Z.of_N n * PERIOD).
Proof.
  cbn [run exec]. unfold bind.
  rewrite opentrace_absent by reflexivity.
  match goal with |- context [ticks n ?w0] =>
    destruct (ticks_effect n w0) as (w & E & T & R & P & _)
  end.
  { cbn. split; [lia|reflexivity]. }
  exists w. rewrite E. repeat apply conj; try reflexivity.
  - unfold is_tracing. now rewrite R, P.
  - rewrite T. reflexivity.
Qed.

End Effects.

(** * The properties of the wrapper *)

Unset Implicit Arguments.

Section Properties.

Context {St : Type} {VA : Model St}.

(** C1 (as the code has it).  The time starts at 0 at construction.
    After any program of the caller, whatever it does with traces, pauses
    and resets, [m_time_ps] is N * (H1 + H2) modulo 2^64, where N counts
    the entries into [tick()] ([reset()] enters it once), H1 = 13888 and
    H2 = 13889.  As long as N * (H1 + H2) stays below 2^64 the time is
    exactly N * (H1 + H2), and it does not decrease across any part of
    the program and strictly increases across a part that ticks. *)
Theorem time_after_tick_calls (changed0 : bool) (ops : list (Op St)) :
  H1 = 13888 /\ H2 = 13889
  /\ m_time_ps (self (TESTB_new changed0)) = 0
  /\ exists w,
       run ops (TESTB_new changed0) = Ok (tt, w)
       /\ m_time_ps (self w) = wrap64 (Z.of_N (tick_calls ops) * (H1 + H2))
       /\ (Z.of_N (tick_calls ops) * (H1 + H2) < UINT64_MOD ->
           m_time_ps (self w) = Z.of_N (tick_calls ops) * (H1 + H2)
           /\ forall pre post, ops = pre ++ post ->
                exists w0,
                  run pre (TESTB_new changed0) = Ok (tt, w0)
                  /\ run post w0 = Ok (tt, w)
                  /\ m_time_ps (self w0)
                     = Z.of_N (tick_calls pre) * (H1 + H2)
                  /\ m_time_ps (self w0) <= m_time_ps (self w)
                  /\ (tick_calls post <> 0%N ->
                      m_time_ps (self w0) < m_time_ps (self w))).
Proof.
  repeat (split; [reflexivity|]).
  assert (H0 : is_uint64 (m_time_ps (self (TESTB_new changed0)))).
  { cbn. split; [lia|reflexivity]. }
  destruct (run_effect ops _ H0) as (w & E & T & _).
  cbn [TESTB_new self m_time_ps] in T. rewrite Z.add_0_l in T.
  fold PERIOD. exists w. split; [exact E|]. split; [exact T|].
  intros Hlt.
  assert (Hpos : 0 < PERIOD) by reflexivity.
  assert (Tw : m_time_ps (self w) = Z.of_N (tick_calls ops) * PERIOD).
  { rewrite T. apply wrap64_small. split; [lia|assumption]. }
  split; [exact Tw|].
  intros pre post ->.
  destruct (run_effect pre _ H0) as (w0 & E0 & T0 & _).
  cbn [TESTB_new self m_time_ps] in T0. rewrite Z.add_0_l in T0.
  rewrite tick_calls_app in Hlt, Tw.
  assert (T0' : m_time_ps (self w0) = Z.of_N (tick_calls pre) * PERIOD).
  { rewrite T0. apply wrap64_small. split; [lia|]. nia. }
  exists w0. rewrite run_app in E. unfold bind in E. rewrite E0 in E.
  repeat apply conj; try assumption.
  - rewrite Tw, T0'. nia.
  - intros Hp. rewrite Tw, T0'. nia.
Qed.

(** C2 (as the code has it).  With a trace sink open and not paused,
    a [tick()] writes exactly three samples, in this order: one at
    (t + Q) modulo 2^64, one at the time after advancing by H1 and one
    at the time after advancing by H2, with a flush after the second;
    0 < Q = 6944 < H1.  When t + H1 + H2 does not pass 2^64 these are
    t + Q < t + H1 < t + H1 + H2, all after t, where the previous tick
    left its last sample.  Hence opentrace, three ticks, closetrace on a
    new wrapper leaves 9 samples at strictly increasing time stamps, at
    time 3 * (H1 + H2). *)
Theorem traced_tick_samples (w : Sim St) (changed0 : bool) :
  is_tracing (self w) = true ->
  is_uint64 (m_time_ps (self w)) ->
  (0 < Q /\ Q < H1)
  /\ (exists w' evs,
        tick w = Ok (tt, w')
        /\ history w' = history w ++ evs
        /\ trace_events evs
           = [EvDump (wrap64 (m_time_ps (self w) + Q));
              EvDump (wrap64 (m_time_ps (self w) + H1));
              EvFlush;
              EvDump (m_time_ps (self w'))]
        /\ m_time_ps (self w')
           = wrap64 (wrap64 (m_time_ps (self w) + H1) + H2)
        /\ (m_time_ps (self w) + H1 + H2 < UINT64_MOD ->
            dumps evs = [m_time_ps (self w) + Q;
                         m_time_ps (self w) + H1;
                         m_time_ps (self w) + H1 + H2]
            /\ m_time_ps (self w') = m_time_ps (self w) + H1 + H2
            /\ strictly_increasing (m_time_ps (self w) :: dumps evs) = true))
  /\ (exists w9,
        run [OpOpentrace "t.vcd" 99; OpTicks 3; OpClosetrace]
            (TESTB_new changed0) = Ok (tt, w9)
        /\ dumps (history w9)
           = [6944; 13888; 27777; 34721; 41665; 55554; 62498; 69442; 83331]
        /\ List.length (dumps (history w9)) = 9%nat
        /\ strictly_increasing (dumps (history w9)) = true
        /\ m_time_ps (self w9) = 3 * (H1 + H2)).
Proof.
  intros Tr [Hlo Hhi].
  split; [split; reflexivity|]. split.
  - destruct (tick_effect w) as (w' & E & T & _ & _ & _ & _ & _ & _ & _ & X).
    rewrite Tr in X.
    exists w'. eexists. split; [exact E|]. split; [exact X|].
    split; [cbn; rewrite T; reflexivity|].
    split; [exact T|].
    intros Hfit.
    unfold Q, H1, H2 in *.
    assert (A1 : wrap64 (m_time_ps (self w) + 6944)
                 = m_time_ps (self w) + 6944).
    { apply wrap64_small. split; lia. }
    assert (A2 : wrap64 (m_time_ps (self w) + 13888)
                 = m_time_ps (self w) + 13888).
    { apply wrap64_small. split; lia. }
    assert (A3 : wrap64 (m_time_ps (self w) + 13888 + 13889)
                 = m_time_ps (self w) + 13888 + 13889).
    { apply wrap64_small. split; lia. }
    cbn. rewrite T, A1, A2, A3.
    repeat apply conj; try reflexivity.
    repeat (apply andb_true_intro; split); try reflexivity; apply Z.ltb_lt; lia.
  - eexists. split; [vm_compute; reflexivity|].
    repeat apply conj; vm_compute; reflexivity.
Qed.

(** C3 (what the code does).  [opentrace(vcdname, depth)] on a wrapper
    without a sink registers the new sink with the model at depth 99,
    whatever [depth] is: the parameter is never read. *)
Theorem opentrace_registers_99 (w : Sim St) (vcdname : string) (depth : Z) :
  m_trace (self w) = None ->
  exists w' tr,
    opentrace vcdname depth w = Ok (tt, w')
    /\ m_trace (self w') = Some tr
    /\ tr_levels tr = Some 99
    /\ history w'
       = history w
         ++ [EvTraceNew; EvCoreTrace 99; EvSetTimeResolution "ps";
             EvSetTimeUnit "ps"; EvOpen vcdname].
Proof.
  intros E. rewrite (opentrace_absent _ _ _ E).
  eexists. eexists. split; [reflexivity|].
  repeat apply conj; reflexivity.
Qed.

(** C4 (as the code has it).  [opentrace] clears [m_paused_trace] when
    it creates the sink; when a sink already exists the call changes
    nothing, so the flag keeps the value it had. *)
Theorem opentrace_paused_flag (w : Sim St) (vcdname : string) (depth : Z) :
  exists w',
    opentrace vcdname depth w = Ok (tt, w')
    /\ (m_trace (self w) = None -> m_paused_trace (self w') = false)
    /\ (m_trace (self w) <> None ->
        w' = w /\ m_paused_trace (self w') = m_paused_trace (self w)).
Proof.
  destruct (m_trace (self w)) eqn:E.
  - exists w. rewrite opentrace_present by congruence.
    repeat apply conj; try reflexivity; try discriminate. auto.
  - rewrite opentrace_absent by assumption.
    eexists. split; [reflexivity|]. split; [reflexivity|]. congruence.
Qed.

(** C5.  Once [done()] has returned true, [m_done] is set, and after
    any further program of the caller, also one in which the termination
    signal is lowered again, [m_done] is still set and [done()] returns
    true without changing anything. *)
Theorem done_is_sticky (w w1 : Sim St) (ops : list (Op St)) :
  done w = Ok (true, w1) ->
  m_done (self w1) = true
  /\ exists w2,
       run ops w1 = Ok (tt, w2)
       /\ m_done (self w2) = true
       /\ done w2 = Ok (true, w2).
Proof.
  rewrite done_effect. intros E.
  assert (D1 : m_done (self w1) = true).
  { injection E as Hb Hw. rewrite <- Hw. cbn. exact Hb. }
  split; [exact D1|].
  destruct (run_done ops w1) as (w2 & E2 & D2).
  exists w2. split; [exact E2|]. split; [auto|].
  rewrite done_effect, (D2 D1). cbn.
  destruct w2 as [[c ch tr d p t] gf teo h]. cbn in *.
  rewrite (D2 D1). reflexivity.
Qed.

(** C6.  A second [opentrace] right after the first changes nothing at
    all: the state and the history are those the first call left.  On a
    wrapper that had no sink the two calls leave one sink, writing the
    file of the first call, created and opened once. *)
Theorem opentrace_idempotent (w : Sim St) (vcdname : string)
    (depth depth' : Z) :
  m_trace (self w) = None ->
  exists w1 tr,
    opentrace vcdname depth w = Ok (tt, w1)
    /\ opentrace vcdname depth' w1 = Ok (tt, w1)
    /\ m_trace (self w1) = Some tr
    /\ tr_file tr = Some vcdname
    /\ history w1
       = history w
         ++ [EvTraceNew; EvCoreTrace 99; EvSetTimeResolution "ps";
             EvSetTimeUnit "ps"; EvOpen vcdname].
Proof.
  intros E. rewrite (opentrace_absent _ _ _ E).
  eexists. eexists. split; [reflexivity|].
  rewrite opentrace_present by (cbn; discriminate).
  repeat apply conj; reflexivity.
Qed.

(** C7 (as the code has it).  With a sink open, [pausetrace(true)], N
    ticks, [pausetrace(false)] make no call on the sink at all; the sink
    stays the one it was; the time advances by N * (H1 + H2) modulo
    2^64, which is exactly N * (H1 + H2) when the sum stays below
    2^64. *)
Theorem paused_ticks (w : Sim St) (n : N) :
  m_trace (self w) <> None ->
  is_uint64 (m_time_ps (self w)) ->
  exists w' evs,
    run [OpPausetrace true; OpTicks n; OpPausetrace false] w = Ok (tt, w')
    /\ history w' = history w ++ evs
    /\ trace_events evs = []
    /\ dumps evs = []
    /\ m_trace (self w') = m_trace (self w)
    /\ m_paused_trace (self w') = false
    /\ m_time_ps (self w')
       = wrap64 (m_time_ps (self w) + Z.of_N n * (H1 + H2))
    /\ (m_time_ps (self w) + Z.of_N n * (H1 + H2) < UINT64_MOD ->
        m_time_ps (self w')
        = m_time_ps (self w) + Z.of_N n * (H1 + H2)).
Proof.
  intros Hs Hw. cbn [run exec]. unfold bind at 1 2.
  rewrite pausetrace_effect. unfold ret at 1, bind at 1.
  match goal with |- context [ticks n ?w0] =>
    destruct (ticks_effect n w0) as (w1 & E & T & R & P & _ & evs & X & Qt);
      [exact Hw|]
  end.
  rewrite E. unfold bind. rewrite pausetrace_effect. unfold ret.
  cbn in T, R, P, X, Qt. fold PERIOD.
  eexists. exists evs. split; [reflexivity|]. cbn.
  assert (Qe : trace_events evs = []).
  { apply Qt. unfold is_tracing. cbn. apply andb_false_r. }
  repeat apply conj; try assumption; try reflexivity.
  - clear - Qe. induction evs as [|e evs IH]; [reflexivity|].
    destruct e; cbn in *; try discriminate; auto.
  - intros Hfit. rewrite T. apply wrap64_small.
    destruct Hw as [Hlo _]. split; [|assumption].
    assert (0 < PERIOD) by reflexivity. nia.
Qed.

(** C8.  [reset()] writes 1 to [i_reset], runs one [tick()] and writes 0
    to [i_reset]: the model is evaluated three times, each time with the
    reset input high; the only inputs written are the reset (1, then 0)
    and, by the tick, the clock (1, then 0); everything else in the
    model is what these three evaluations made of it; the reset input is
    low on return. *)
Theorem reset_pulse (w : Sim St) :
  exists wa wb w' evs,
    core_set_reset 1 w = Ok (tt, wa)
    /\ tick wa = Ok (tt, wb)
    /\ core_set_reset 0 wb = Ok (tt, w')
    /\ reset w = Ok (tt, w')
    /\ history w' = history w ++ evs
    /\ port_writes evs = [EvSetReset 1; EvSetClk 1; EvSetClk 0; EvSetReset 0]
    /\ evals evs = [(i_clk (m_core (self w)), 1); (1, 1); (0, 1)]
    /\ i_reset (m_core (self w')) = 0
    /\ signals (m_core (self w'))
       = (let s1 := fst (core_eval
                      {| i_clk := i_clk (m_core (self w)); i_reset := 1;
                         signals := signals (m_core (self w)) |}) in
          let s2 := fst (core_eval
                      {| i_clk := 1; i_reset := 1; signals := s1 |}) in
          fst (core_eval {| i_clk := 0; i_reset := 1; signals := s2 |}))
    /\ m_time_ps (self w')
       = wrap64 (wrap64 (m_time_ps (self w) + H1) + H2).
Proof.
  destruct (reset_effect w) as (w' & E & T & _ & _ & _ & _ & Rz & Sg & X).
  pose proof (core_set_reset_effect 1 w) as Ea.
  match type of Ea with _ = Ok (tt, ?wa) =>
    destruct (tick_total wa) as (wb & Eb)
  end.
  assert (Ec : core_set_reset 0 wb = Ok (tt, w')).
  { unfold reset, bind in E. rewrite Ea, Eb in E. exact E. }
  eexists. exists wb, w'. eexists.
  split; [exact Ea|]. split; [exact Eb|]. split; [exact Ec|].
  split; [exact E|]. split; [exact X|].
  repeat apply conj; try assumption.
  - destruct (is_tracing (self w)); reflexivity.
  - destruct (is_tracing (self w)); reflexivity.
Qed.

(** C9.  [tick()] returns on every wrapper, so it never follows a null
    [m_trace]; when there is no sink, or tracing is paused, it makes no
    call on the sink; whenever it does write or flush, a sink exists and
    tracing is not paused.  So it is safe on a new wrapper and after
    [closetrace()]. *)
Theorem tick_trace_guard (w : Sim St) (changed0 : bool) :
  (exists w' evs,
     tick w = Ok (tt, w')
     /\ history w' = history w ++ evs
     /\ (m_trace (self w) = None -> trace_events evs = [])
     /\ (m_paused_trace (self w) = true -> trace_events evs = [])
     /\ (trace_events evs <> [] ->
         m_trace (self w) <> None /\ m_paused_trace (self w) = false))
  /\ (exists w' evs,
        tick (TESTB_new changed0) = Ok (tt, w')
        /\ history w' = history (TESTB_new changed0) ++ evs
        /\ trace_events evs = [])
  /\ (exists w1 w2 evs,
        closetrace w = Ok (tt, w1)
        /\ m_trace (self w1) = None
        /\ tick w1 = Ok (tt, w2)
        /\ history w2 = history w1 ++ evs
        /\ trace_events evs = []).
Proof.
  assert (G : forall v : Sim St, exists v' evs,
    tick v = Ok (tt, v')
    /\ history v' = history v ++ evs
    /\ (m_trace (self v) = None -> trace_events evs = [])
    /\ (m_paused_trace (self v) = true -> trace_events evs = [])
    /\ (trace_events evs <> [] ->
        m_trace (self v) <> None /\ m_paused_trace (self v) = false)).
  { intros v.
    destruct (tick_effect v) as (v' & E & _ & _ & _ & _ & _ & _ & _ & _ & X).
    exists v'. eexists. split; [exact E|]. split; [exact X|].
    unfold is_tracing.
    destruct (m_trace (self v)), (m_paused_trace (self v)); cbn;
      repeat apply conj; intros; try reflexivity; try discriminate;
      try congruence; split; congruence. }
  split; [apply G|]. split.
  - destruct (G (TESTB_new changed0)) as (w' & evs & E & X & N0 & _).
    exists w', evs. repeat apply conj; try assumption. now apply N0.
  - destruct (m_trace (self w)) eqn:Em.
    + erewrite closetrace_present by eassumption.
      match goal with |- context [Ok (tt, ?v)] =>
        destruct (G v) as (w2 & evs & E & X & N0 & _) end.
      eexists. exists w2, evs. split; [reflexivity|].
      repeat apply conj; try assumption; try reflexivity. now apply N0.
    + rewrite closetrace_absent by assumption.
      destruct (G w) as (w2 & evs & E & X & N0 & _).
      exists w, w2, evs. repeat apply conj; try assumption; try reflexivity.
      now apply N0.
Qed.

(** C10.  [eval()] only evaluates the model: [m_time_ps], [m_trace],
    [m_paused_trace], [m_done] and [m_changed] are unchanged and no call
    is made on the sink.  [done()] changes nothing but [m_done], which it
    can only raise, and makes no call at all. *)
Theorem eval_and_done_frame (w : Sim St) :
  (exists w',
     eval w = Ok (tt, w')
     /\ m_time_ps (self w') = m_time_ps (self w)
     /\ m_trace (self w') = m_trace (self w)
     /\ m_paused_trace (self w') = m_paused_trace (self w)
     /\ m_done (self w') = m_done (self w)
     /\ m_changed (self w') = m_changed (self w)
     /\ history w'
        = history w ++ [EvEval (i_clk (m_core (self w)))
                               (i_reset (m_core (self w)))]
     /\ trace_events (history w') = trace_events (history w)
     /\ dumps (history w') = dumps (history w))
  /\ (exists b w',
        done w = Ok (b, w')
        /\ b = m_done (self w')
        /\ self w' = set_m_done b (self w)
        /\ m_core (self w') = m_core (self w)
        /\ m_time_ps (self w') = m_time_ps (self w)
        /\ m_trace (self w') = m_trace (self w)
        /\ m_paused_trace (self w') = m_paused_trace (self w)
        /\ m_changed (self w') = m_changed (self w)
        /\ (m_done (self w) = true -> m_done (self w') = true)
        /\ gotFinish w' = gotFinish w
        /\ history w' = history w).
Proof.
  split.
  - rewrite eval_effect. eexists. split; [reflexivity|]. cbn.
    repeat apply conj; try reflexivity.
    + rewrite trace_events_app. cbn. apply app_nil_r.
    + rewrite dumps_app. cbn. apply app_nil_r.
  - rewrite done_effect. eexists. eexists. split; [reflexivity|]. cbn.
    repeat apply conj; try reflexivity. now intros ->.
Qed.

End Properties.

(** C1, a wrapper that ticks three times and is reset once. *)
Lemma time_after_tick_calls_witness :
  exists w : Sim unit,
    run [OpTicks 2; OpReset; OpDone; OpTicks 1] (TESTB_new false) = Ok (tt, w)
    /\ m_time_ps (self w) = 4 * (H1 + H2).
Proof.
  destruct (time_after_tick_calls (VA := idle) false
              [OpTicks 2; OpReset; OpDone; OpTicks 1])
    as (_ & _ & _ & w & E & _ & X).
  exists w. split; [exact E|].
  apply X. reflexivity.
Defined.

(** C1 as stated fails: the tick after 664101381492225 ticks wraps the
    64-bit counter; the time is then 9986 ps, less than before the tick
    and not 664101381492226 * (H1 + H2). *)
Lemma time_wraps_after_many_ticks :
  exists w0 w1 : Sim unit,
    run [OpTicks 664101381492225] (TESTB_new false) = Ok (tt, w0)
    /\ run [OpTicks 664101381492225; OpTicks 1] (TESTB_new false)
       = Ok (tt, w1)
    /\ tick_calls [OpTicks 664101381492225; @OpTicks unit 1]
       = 664101381492226%N
    /\ m_time_ps (self w0) = 18446744073709533825
    /\ m_time_ps (self w1) = 9986
    /\ m_time_ps (self w1) <> 664101381492226 * (H1 + H2)
    /\ ~ m_time_ps (self w0) < m_time_ps (self w1).
Proof.
  assert (H0 : is_uint64 (m_time_ps (self (TESTB_new (VA := idle) false)))).
  { cbn. split; [lia|reflexivity]. }
  destruct (run_effect [OpTicks 664101381492225; OpTicks 1] _ H0)
    as (w1 & E1 & T1 & _).
  destruct (run_effect [OpTicks 664101381492225] _ H0)
    as (w0 & E0 & T0 & _).
  exists w0, w1.
  assert (A0 : wrap64 (m_time_ps (self (TESTB_new (VA := idle) false))
                       + Z.of_N (tick_calls [@OpTicks unit 664101381492225])
                         * PERIOD) = 18446744073709533825)
    by (vm_compute; reflexivity).
  assert (A1 : wrap64 (m_time_ps (self (TESTB_new (VA := idle) false))
                       + Z.of_N (tick_calls [OpTicks 664101381492225;
                                             @OpTicks unit 1])
                         * PERIOD) = 9986)
    by (vm_compute; reflexivity).
  rewrite A0 in T0. rewrite A1 in T1.
  repeat apply conj; try assumption.
  - reflexivity.
  - rewrite T1. vm_compute. discriminate.
  - rewrite T0, T1. vm_compute. discriminate.
Qed.

(** C2, the first tick after opening a trace on a new wrapper. *)
Lemma traced_tick_samples_witness :
  exists w1 w' : Sim unit,
    opentrace "t.vcd" 99 (TESTB_new false) = Ok (tt, w1)
    /\ tick w1 = Ok (tt, w')
    /\ dumps (history w') = [6944; 13888; 27777]
    /\ m_time_ps (self w') = 27777.
Proof.
  eexists.
  match goal with |- exists w', ?o = Ok (tt, ?w1) /\ _ =>
    assert (E1 : o = Ok (tt, w1)) by (vm_compute; reflexivity)
  end.
  match type of E1 with _ = Ok (tt, ?w1) =>
    destruct (traced_tick_samples (VA := idle) w1 false)
      as (_ & (w' & evs & E & X & _ & _ & F) & _);
      [reflexivity | split; [discriminate | reflexivity] |]
  end.
  exists w'. split; [exact E1|]. split; [exact E|].
  destruct F as (D & T & _); [reflexivity|].
  split; [|exact T].
  rewrite X, dumps_app, D. reflexivity.
Defined.

(** C2 as stated fails near the end of the 64-bit range.  After
    3320506907461128 ticks the time is 2^64 - 5624; the next tick puts
    its first sample at 1320, which is not the time plus Q and lies
    before the last sample of the previous tick. *)
Lemma first_sample_wraps :
  exists w0 w1 w2 : Sim unit,
    run [OpOpentrace "t.vcd" 99; OpTicks 3320506907461127] (TESTB_new false)
    = Ok (tt, w0)
    /\ tick w0 = Ok (tt, w1)
    /\ tick w1 = Ok (tt, w2)
    /\ is_tracing (self w1) = true
    /\ m_time_ps (self w1) = 18446744073709545992
    /\ dumps (history w1)
       = dumps (history w0)
         ++ [18446744073709525159; 18446744073709532103;
             18446744073709545992]
    /\ dumps (history w2)
       = dumps (history w1) ++ [1320; 8264; 22153]
    /\ 1320 <> m_time_ps (self w1) + Q
    /\ ~ 18446744073709545992 < 1320.
Proof.
  destruct (traced_ticks (VA := idle) false "t.vcd" 99 3320506907461127)
    as (w0 & E0 & R0 & T0).
  destruct (tick_dumps w0 R0) as (w1 & E1 & R1 & T1 & D1).
  destruct (tick_dumps w1 R1) as (w2 & E2 & R2 & T2 & D2).
  assert (A0 : wrap64 (Z.of_N 3320506907461127 * PERIOD)
               = 18446744073709518215) by (vm_compute; reflexivity).
  rewrite A0 in T0. rewrite T0 in T1, D1.
  assert (B1 : wrap64 (18446744073709518215 + Q) = 18446744073709525159)
    by (vm_compute; reflexivity).
  assert (B2 : wrap64 (18446744073709518215 + H1) = 18446744073709532103)
    by (vm_compute; reflexivity).
  assert (B3 : wrap64 (18446744073709532103 + H2) = 18446744073709545992)
    by (vm_compute; reflexivity).
  rewrite B1, B2, B3 in D1. rewrite B2, B3 in T1.
  rewrite T1 in T2, D2.
  assert (C1 : wrap64 (18446744073709545992 + Q) = 1320)
    by (vm_compute; reflexivity).
  assert (C2 : wrap64 (18446744073709545992 + H1) = 8264)
    by (vm_compute; reflexivity).
  assert (C3 : wrap64 (8264 + H2) = 22153)
    by (vm_compute; reflexivity).
  rewrite C1, C2, C3 in D2.
  exists w0, w1, w2.
  repeat apply conj; try assumption.
  - rewrite T1. vm_compute. discriminate.
  - vm_compute. discriminate.
Qed.

(** C3, the call [opentrace("t.vcd", 5)] on a new wrapper: the sink is
    registered at depth 99, not 5. *)
Lemma opentrace_registers_99_witness :
  exists (w' : Sim unit) tr,
    opentrace "t.vcd" 5 (TESTB_new false) = Ok (tt, w')
    /\ m_trace (self w') = Some tr
    /\ tr_levels tr = Some 99
    /\ tr_levels tr <> Some 5.
Proof.
  destruct (opentrace_registers_99 (TESTB_new false) "t.vcd" 5)
    as (w' & tr & E & Em & El & _); [reflexivity|].
  exists w', tr. repeat apply conj; try assumption.
  rewrite El. discriminate.
Defined.

(** C4, both cases: a new wrapper, and the same wrapper once its trace
    is open and paused. *)
Lemma opentrace_paused_flag_witness :
  (exists w' : Sim unit,
     opentrace "a" 99 (TESTB_new false) = Ok (tt, w')
     /\ m_paused_trace (self w') = false)
  /\ (exists w : Sim unit,
        run [OpOpentrace "a" 99; OpPausetrace true] (TESTB_new false)
        = Ok (tt, w)
        /\ opentrace "b" 7 w = Ok (tt, w)).
Proof.
  split.
  - destruct (opentrace_paused_flag (TESTB_new false) "a" 99)
      as (w' & E & A & _).
    exists w'. split; [exact E|]. apply A. reflexivity.
  - eexists. split; [vm_compute; reflexivity|].
    match goal with |- opentrace _ _ ?w = _ =>
      destruct (opentrace_paused_flag w "b" 7)
        as (w' & E & _ & P)
    end.
    destruct P as [-> _]; [discriminate|]. exact E.
Defined.

(** C4 as stated fails: with a trace open and paused, [opentrace]
    leaves [m_paused_trace] true. *)
Lemma opentrace_leaves_pause_set :
  exists w w' : Sim unit,
    run [OpOpentrace "a" 99; OpPausetrace true] (TESTB_new false)
    = Ok (tt, w)
    /\ opentrace "a" 99 w = Ok (tt, w')
    /\ m_paused_trace (self w') = true.
Proof.
  eexists. eexists.
  split; [vm_compute; reflexivity|].
  split; [vm_compute; reflexivity|].
  reflexivity.
Qed.

(** C5, a wrapper whose termination signal is up when [done()] is first
    called, and is lowered afterwards. *)
Lemma done_is_sticky_witness :
  exists w w1 w2 : Sim unit,
    run [OpTicks 1; OpGotFinish true] (TESTB_new false) = Ok (tt, w)
    /\ done w = Ok (true, w1)
    /\ run [OpGotFinish false; OpTicks 2; OpReset; OpDone] w1 = Ok (tt, w2)
    /\ gotFinish w2 = false
    /\ done w2 = Ok (true, w2).
Proof.
  eexists. eexists.
  match goal with |- exists w2, ?r = Ok (tt, ?w) /\ ?d = Ok (true, ?w1) /\ _ =>
    assert (E : r = Ok (tt, w)) by (vm_compute; reflexivity);
    assert (D : d = Ok (true, w1)) by (vm_compute; reflexivity);
    destruct (done_is_sticky (VA := idle) w w1
                [OpGotFinish false; OpTicks 2; OpReset; OpDone] D)
      as (_ & w2 & E2 & _ & D2)
  end.
  exists w2. repeat apply conj; try assumption.
  vm_compute in E2. injection E2 as <-. reflexivity.
Defined.

(** C6, on a new wrapper. *)
Lemma opentrace_idempotent_witness :
  exists (w1 : Sim unit) tr,
    opentrace "a" 99 (TESTB_new false) = Ok (tt, w1)
    /\ opentrace "a" 99 w1 = Ok (tt, w1)
    /\ m_trace (self w1) = Some tr
    /\ tr_file tr = Some "a"%string.
Proof.
  destruct (opentrace_idempotent (TESTB_new false) "a" 99 99)
    as (w1 & tr & E1 & E2 & Em & Ef & _); [reflexivity|].
  exists w1, tr. auto.
Defined.

(** C7, five paused ticks on a wrapper that has just opened its trace. *)
Lemma paused_ticks_witness :
  exists w0 w' : Sim unit,
    opentrace "t.vcd" 99 (TESTB_new false) = Ok (tt, w0)
    /\ run [OpPausetrace true; OpTicks 5; OpPausetrace false] w0
       = Ok (tt, w')
    /\ dumps (history w') = dumps (history w0)
    /\ m_time_ps (self w') = 5 * (H1 + H2).
Proof.
  eexists.
  match goal with |- exists w', ?o = Ok (tt, ?w0) /\ _ =>
    assert (E0 : o = Ok (tt, w0)) by (vm_compute; reflexivity);
    destruct (paused_ticks (VA := idle) w0 5)
      as (w' & evs & E & X & _ & D & _ & _ & _ & T);
      [discriminate | split; [discriminate | reflexivity] |]
  end.
  exists w'. split; [exact E0|]. split; [exact E|]. split.
  - rewrite X, dumps_app, D. apply app_nil_r.
  - apply T. reflexivity.
Defined.

(** C7 as stated fails for N = 664101381492226: the paused ticks wrap
    the 64-bit counter and the time advances from 0 to 9986 only. *)
Lemma paused_ticks_wrap :
  exists w0 w1 : Sim unit,
    opentrace "t.vcd" 99 (TESTB_new false) = Ok (tt, w0)
    /\ m_trace (self w0) <> None
    /\ m_time_ps (self w0) = 0
    /\ run [OpPausetrace true; OpTicks 664101381492226; OpPausetrace false]
           w0 = Ok (tt, w1)
    /\ m_time_ps (self w1) = 9986
    /\ m_time_ps (self w1)
       <> m_time_ps (self w0) + 664101381492226 * (H1 + H2).
Proof.
  eexists.
  match goal with |- exists w1, ?o = Ok (tt, ?w0) /\ _ =>
    assert (E0 : o = Ok (tt, w0)) by (vm_compute; reflexivity);
    destruct (run_effect (VA := idle)
                [OpPausetrace true; OpTicks 664101381492226;
                 OpPausetrace false] w0)
      as (w1 & E & T & _); [split; [discriminate | reflexivity] |]
  end.
  assert (A : wrap64 (0 + Z.of_N (tick_calls
                 [OpPausetrace true; OpTicks 664101381492226;
                  @OpPausetrace unit false]) * PERIOD) = 9986)
    by (vm_compute; reflexivity).
  cbn [self m_time_ps set_m_paused_trace set_m_trace TESTB_new] in T.
  rewrite A in T.
  exists w1. repeat apply conj; try assumption; try reflexivity.
  - discriminate.
  - rewrite T. vm_compute. discriminate.
Qed.

(** C9, a tick on a wrapper whose trace was opened and then closed. *)
Lemma tick_trace_guard_witness :
  exists w w' : Sim unit,
    run [OpOpentrace "t.vcd" 99; OpTicks 1; OpClosetrace] (TESTB_new false)
    = Ok (tt, w)
    /\ tick w = Ok (tt, w')
    /\ trace_events (history w') = trace_events (history w).
Proof.
  eexists.
  match goal with |- exists w', ?r = Ok (tt, ?w) /\ _ =>
    assert (E0 : r = Ok (tt, w)) by (vm_compute; reflexivity);
    destruct (tick_trace_guard (VA := idle) w false)
      as ((w' & evs & E & X & N0 & _) & _)
  end.
  exists w'. split; [exact E0|]. split; [exact E|].
  rewrite X, trace_events_app, N0 by reflexivity. apply app_nil_r.
Defined.

(** * Programs step by step *)

Section Steps.

Context {St : Type} {VA : Model St}.

Lemma bind_ret_tt (m : M St unit) (w : Sim St) : (m ;; ret tt) w = m w.
Proof. unfold bind, ret. destruct (m w) as [[[] w']|]; reflexivity. Qed.

Lemma run_atoms_app (a b : list (Atom St)) (w : Sim St) :
  run_atoms (a ++ b) w = (run_atoms a ;; run_atoms b) w.
Proof.
  revert w. induction a as [|x a IH]; intros w; cbn [app run_atoms].
  - reflexivity.
  - unfold bind. destruct (exec_atom x w) as [[[] w1]|]; [|reflexivity].
    rewrite IH. reflexivity.
Qed.

Lemma ticks_atoms (n : N) :
  forall w : Sim St, ticks n w = run_atoms (repeat ATick (N.to_nat n)) w.
Proof.
  induction n as [|n IH] using N.peano_ind; intros w.
  - reflexivity.
  - rewrite ticks_succ, N2Nat.inj_succ. cbn [repeat run_atoms exec_atom].
    unfold bind. destruct (tick w) as [[[] w1]|]; [apply IH|reflexivity].
Qed.

Lemma exec_atoms (o : Op St) (w : Sim St) :
  exec o w = run_atoms (atoms o) w.
Proof.
  destruct o; cbn [exec atoms run_atoms exec_atom trace];
    rewrite ?bind_ret_tt; try reflexivity.
  apply ticks_atoms.
Qed.

Lemma run_as_atoms (ops : list (Op St)) :
  forall w : Sim St, run ops w = run_atoms (flat_map atoms ops) w.
Proof.
  induction ops as [|o ops IH]; intros w; cbn [run flat_map].
  - reflexivity.
  - rewrite run_atoms_app. unfold bind. rewrite exec_atoms.
    destruct (run_atoms (atoms o) w) as [[[] w1]|]; [apply IH|reflexivity].
Qed.

Lemma tick_atoms_app (a b : list (Atom St)) :
  tick_atoms (a ++ b) = (tick_atoms a + tick_atoms b)%nat.
Proof. unfold tick_atoms. now rewrite filter_app, length_app. Qed.

Lemma tick_atoms_repeat (k : nat) :
  tick_atoms (repeat (@ATick St) k) = k.
Proof.
  unfold tick_atoms. induction k as [|k IH]; [reflexivity|].
  cbn. now rewrite IH.
Qed.

Lemma tick_atoms_calls (ops : list (Op St)) :
  N.of_nat (tick_atoms (flat_map atoms ops)) = tick_calls ops.
Proof.
  induction ops as [|o ops IH]; [reflexivity|].
  cbn [flat_map]. rewrite tick_atoms_app, Nat2N.inj_add, IH.
  destruct o; cbn [atoms tick_calls]; try reflexivity.
  rewrite tick_atoms_repeat, N2Nat.id. reflexivity.
Qed.

(** What every single step keeps, every program keeps. *)
Lemma run_atoms_invariant (J : Sim St -> Prop) (ok : Atom St -> Prop) :
  (forall a w, ok a -> J w ->
     exists w', exec_atom a w = Ok (tt, w') /\ J w') ->
  forall l w, Forall ok l -> J w ->
    exists w', run_atoms l w = Ok (tt, w') /\ J w'.
Proof.
  intros Hstep. induction l as [|a l IH]; intros w Hl Hw.
  - exists w. split; [reflexivity|assumption].
  - inversion Hl as [|? ? Ha Hl']; subst.
    destruct (Hstep a w Ha Hw) as (w1 & E1 & J1).
    destruct (IH w1 Hl' J1) as (w2 & E2 & J2).
    exists w2. cbn [run_atoms]. unfold bind. rewrite E1. auto.
Qed.

Lemma run_invariant (J : Sim St -> Prop) :
  (forall a w, J w -> exists w', exec_atom a w = Ok (tt, w') /\ J w') ->
  forall ops w, J w -> exists w', run ops w = Ok (tt, w') /\ J w'.
Proof.
  intros Hstep ops w Hw. rewrite run_as_atoms.
  apply (run_atoms_invariant J (fun _ => True)); auto.
  apply Forall_forall. auto.
Qed.

(** ** The life cycle of the sink *)

Lemma sink_run_app (s : SinkState) (h1 h2 : list Event) :
  sink_run s (h1 ++ h2)
  = match sink_run s h1 with
    | Some s' => sink_run s' h2
    | None => None
    end.
Proof.
  revert s. induction h1 as [|e h1 IH]; intros s; cbn; [reflexivity|].
  destruct (sink_step s e); [apply IH|reflexivity].
Qed.

Lemma sink_invariant_new (changed0 : bool) :
  sink_invariant (TESTB_new changed0).
Proof. split; [reflexivity|]. cbn. discriminate. Qed.

Lemma sink_invariant_step (a : Atom St) (w : Sim St) :
  sink_invariant w ->
  exists w', exec_atom a w = Ok (tt, w') /\ sink_invariant w'.
Proof.
  intros H. pose proof H as [Hr Hs]. destruct a; cbn [exec_atom].
  - destruct (tick_effect w) as (w' & E & _ & R & P & _ & _ & _ & _ & _ & X).
    exists w'. split; [exact E|]. split.
    + rewrite X, sink_run_app, Hr. unfold sink_of, is_tracing. rewrite R.
      destruct (m_trace (self w)), (m_paused_trace (self w));
        cbn; reflexivity.
    + intros tr. rewrite R. apply H.
  - rewrite core_set_reset_effect. eexists. split; [reflexivity|]. split.
    + cbn. rewrite sink_run_app, Hr. reflexivity.
    + apply H.
  - destruct (m_trace (self w)) eqn:Em.
    + rewrite opentrace_present by congruence.
      exists w. split; [reflexivity|]. exact H.
    + rewrite opentrace_absent by assumption.
      eexists. split; [reflexivity|]. split.
      * cbn. rewrite sink_run_app, Hr. unfold sink_of. rewrite Em.
        reflexivity.
      * cbn. intros tr E. injection E as <-. eexists. reflexivity.
  - unfold bind. rewrite pausetrace_effect. eexists.
    split; [reflexivity|]. exact H.
  - eexists. split; [reflexivity|]. exact H.
  - destruct (m_trace (self w)) eqn:Em.
    + erewrite closetrace_present by eassumption.
      eexists. split; [reflexivity|]. split.
      * cbn. rewrite sink_run_app, Hr. unfold sink_of. rewrite Em.
        reflexivity.
      * cbn. discriminate.
    + rewrite closetrace_absent by assumption.
      exists w. split; [reflexivity|]. exact H.
  - rewrite eval_effect. eexists. split; [reflexivity|]. split.
    + cbn. rewrite sink_run_app, Hr. reflexivity.
    + apply H.
  - unfold bind. rewrite done_effect. eexists.
    split; [reflexivity|]. exact H.
  - eexists. split; [reflexivity|]. exact H.
  - eexists. split; [reflexivity|]. exact H.
Qed.

(** ** Steps other than a tick *)

Lemma atom_frame (a : Atom St) (w : Sim St) :
  is_tick_atom a = false ->
  exists w' evs,
    exec_atom a w = Ok (tt, w')
    /\ history w' = history w ++ evs
    /\ dumps evs = []
    /\ m_time_ps (self w') = m_time_ps (self w)
    /\ m_changed (self w') = m_changed (self w).
Proof.
  intros Ha. destruct a; try discriminate; cbn [exec_atom].
  - rewrite core_set_reset_effect. eexists. eexists.
    split; [reflexivity|]. repeat apply conj; reflexivity.
  - destruct (m_trace (self w)) eqn:Em.
    + rewrite opentrace_present by congruence. exists w, [].
      rewrite app_nil_r. repeat apply conj; reflexivity.
    + rewrite opentrace_absent by assumption. eexists. eexists.
      split; [reflexivity|]. repeat apply conj; reflexivity.
  - unfold bind. rewrite pausetrace_effect. eexists. exists [].
    split; [reflexivity|]. cbn. rewrite app_nil_r.
    repeat apply conj; reflexivity.
  - exists w, []. rewrite app_nil_r.
    split; [reflexivity|]. repeat apply conj; reflexivity.
  - destruct (m_trace (self w)) eqn:Em.
    + erewrite closetrace_present by eassumption. eexists. eexists.
      split; [reflexivity|]. repeat apply conj; reflexivity.
    + rewrite closetrace_absent by assumption. exists w, [].
      rewrite app_nil_r. repeat apply conj; reflexivity.
  - rewrite eval_effect. eexists. eexists.
    split; [reflexivity|]. repeat apply conj; reflexivity.
  - unfold bind. rewrite done_effect. eexists. exists [].
    split; [reflexivity|]. cbn. rewrite app_nil_r.
    repeat apply conj; reflexivity.
  - eexists. exists []. split; [reflexivity|]. cbn. rewrite app_nil_r.
    repeat apply conj; reflexivity.
  - eexists. exists []. split; [reflexivity|]. cbn. rewrite app_nil_r.
    repeat apply conj; reflexivity.
Qed.

(** ** The order of the samples *)

Lemma strictly_increasing_app (l m : list Z) (b : Z) :
  strictly_increasing l = true ->
  strictly_increasing m = true ->
  Forall (fun d => d <= b) l ->
  Forall (fun d => b < d) m ->
  strictly_increasing (l ++ m) = true.
Proof.
  intros Hl Hm Hlb Hmb. induction l as [|x l IH]; [exact Hm|].
  inversion Hlb as [|? ? Hx Hlb']; subst.
  destruct l as [|y l].
  - cbn. destruct m as [|z m]; [reflexivity|].
    inversion Hmb as [|? ? Hz _]; subst.
    cbn in Hm |- *. rewrite Hm, andb_true_r. apply Z.ltb_lt. lia.
  - cbn [strictly_increasing] in Hl. apply andb_true_iff in Hl as [Hxy Hl].
    cbn [app strictly_increasing]. rewrite Hxy. cbn [andb].
    apply IH; assumption.
Qed.

Lemma dump_invariant_step (a : Atom St) (w : Sim St) :
  dump_invariant w ->
  m_time_ps (self w) + (if is_tick_atom a then PERIOD else 0) < UINT64_MOD ->
  exists w',
    exec_atom a w = Ok (tt, w')
    /\ dump_invariant w'
    /\ m_time_ps (self w')
       = m_time_ps (self w) + (if is_tick_atom a then PERIOD else 0).
Proof.
  intros (H0 & Hs & Hb) Hfit.
  destruct (is_tick_atom a) eqn:Ha.
  - destruct a; try discriminate. cbn [exec_atom].
    destruct (tick_effect w) as (w' & E & T & _ & _ & _ & _ & _ & _ & _ & X).
    unfold PERIOD, H1, H2 in Hfit.
    assert (T' : m_time_ps (self w') = m_time_ps (self w) + PERIOD).
    { rewrite T, wrap64_period. apply wrap64_small.
      unfold PERIOD, H1, H2. split; lia. }
    exists w'. split; [exact E|]. split; [|exact T'].
    unfold dump_invariant. rewrite X, dumps_app, T'.
    assert (Hb' : Forall (fun d => 0 < d <= m_time_ps (self w) + PERIOD)
                    (dumps (history w))).
    { eapply Forall_impl; [|exact Hb]. cbn. unfold PERIOD, H1, H2. lia. }
    unfold PERIOD, H1, H2 in *.
    destruct (is_tracing (self w)); cbn [tick_events dumps].
    + rewrite wrap64_add_l.
      rewrite !wrap64_small by (split; lia).
      split; [lia|]. split.
      * apply strictly_increasing_app with (b := m_time_ps (self w)).
        -- exact Hs.
        -- cbn. repeat (apply andb_true_intro; split);
             try reflexivity; apply Z.ltb_lt; lia.
        -- eapply Forall_impl; [|exact Hb]. cbn. lia.
        -- repeat constructor; lia.
      * apply Forall_app. split; [exact Hb'|].
        repeat constructor; lia.
    + rewrite app_nil_r. split; [lia|]. split; assumption.
  - destruct (atom_frame a w Ha) as (w' & evs & E & X & D & T & _).
    exists w'. split; [exact E|]. rewrite Z.add_0_r. split; [|exact T].
    unfold dump_invariant. rewrite X, dumps_app, D, app_nil_r, T.
    repeat apply conj; assumption.
Qed.

Lemma run_atoms_dumps (l : list (Atom St)) :
  forall w : Sim St,
    dump_invariant w ->
    m_time_ps (self w) + Z.of_nat (tick_atoms l) * PERIOD < UINT64_MOD ->
    exists w',
      run_atoms l w = Ok (tt, w')
      /\ dump_invariant w'
      /\ m_time_ps (self w')
         = m_time_ps (self w) + Z.of_nat (tick_atoms l) * PERIOD.
Proof.
  assert (Hp : 0 < PERIOD) by reflexivity.
  induction l as [|a l IH]; intros w Hw Hfit.
  - exists w. cbn. split; [reflexivity|]. split; [assumption|lia].
  - assert (Hc : Z.of_nat (tick_atoms (a :: l))
                 = (if is_tick_atom a then 1 else 0)
                   + Z.of_nat (tick_atoms l)).
    { unfold tick_atoms. cbn [filter].
      destruct (is_tick_atom a); cbn [List.length]; lia. }
    rewrite Hc in *.
    destruct (dump_invariant_step a w Hw) as (w1 & E1 & J1 & T1).
    { destruct (is_tick_atom a); nia. }
    destruct (IH w1 J1) as (w2 & E2 & J2 & T2).
    { rewrite T1. destruct (is_tick_atom a); nia. }
    exists w2. cbn [run_atoms]. unfold bind. rewrite E1.
    split; [exact E2|]. split; [exact J2|].
    rewrite T2, T1. destruct (is_tick_atom a); lia.
Qed.

(** ** The flag of the hook *)


(** ** A design that does not finish *)

Lemma quiet_step (a : Atom St) (w : Sim St) :
  never_finishes VA ->
  a <> AGotFinish true ->
  gotFinish w = false /\ m_done (self w) = false ->
  exists w',
    exec_atom a w = Ok (tt, w')
    /\ gotFinish w' = false /\ m_done (self w') = false.
Proof.
  intros Hn Ha [Hg Hd]. destruct a; cbn [exec_atom].
  - destruct w as [[c ch [tr|] d [|] t] gf teo h]; cbn in Hg, Hd; subst;
      (eexists; split; [cbn; reflexivity|]); cbn;
      rewrite !Hn; split; reflexivity.
  - rewrite core_set_reset_effect. eexists. split; [reflexivity|]. auto.
  - destruct (m_trace (self w)) eqn:Em.
    + rewrite opentrace_present by congruence. eauto.
    + rewrite opentrace_absent by assumption.
      eexists. split; [reflexivity|]. auto.
  - unfold bind. rewrite pausetrace_effect. eexists.
    split; [reflexivity|]. auto.
  - eexists. split; [reflexivity|]. auto.
  - destruct (m_trace (self w)) eqn:Em.
    + erewrite closetrace_present by eassumption.
      eexists. split; [reflexivity|]. auto.
    + rewrite closetrace_absent by assumption. eauto.
  - rewrite eval_effect. eexists. split; [reflexivity|]. cbn.
    rewrite Hn, Hg. auto.
  - unfold bind. rewrite done_effect. eexists. split; [reflexivity|]. cbn.
    rewrite Hg, Hd. auto.
  - eexists. split; [reflexivity|]. auto.
  - destruct b; [congruence|]. eexists. split; [reflexivity|]. auto.
Qed.

(** ** Counting what ticks do *)

Lemma evals_app (h1 h2 : list Event) :
  evals (h1 ++ h2) = evals h1 ++ evals h2.
Proof.
  induction h1 as [|e h1 IH]; [reflexivity|].
  destruct e; cbn; rewrite ?IH; reflexivity.
Qed.

Lemma ticks_counts (n : N) :
  forall w : Sim St,
    exists w' evs,
      ticks n w = Ok (tt, w')
      /\ history w' = history w ++ evs
      /\ is_tracing (self w') = is_tracing (self w)
      /\ evals evs
         = ticks_evals (i_clk (m_core (self w)))
             (i_reset (m_core (self w))) (N.to_nat n)
      /\ port_writes evs
         = List.concat (repeat [EvSetClk 1; EvSetClk 0] (N.to_nat n))
      /\ i_reset (m_core (self w')) = i_reset (m_core (self w))
      /\ i_clk (m_core (self w'))
         = (if (n =? 0)%N then i_clk (m_core (self w)) else 0)
      /\ List.length (dumps evs)
         = (if is_tracing (self w) then 3 * N.to_nat n else 0)%nat
      /\ flushes evs
         = (if is_tracing (self w) then N.to_nat n else 0)%nat
      /\ List.length (trace_events evs)
         = (if is_tracing (self w) then 4 * N.to_nat n else 0)%nat.
Proof.
  induction n as [|n IH] using N.peano_ind; intros w.
  - exists w, []. rewrite app_nil_r. cbn.
    destruct (is_tracing (self w)); repeat apply conj; reflexivity.
  - destruct (tick_effect w)
      as (w1 & E1 & _ & R1 & P1 & _ & _ & K1 & S1 & _ & X1).
    destruct (IH w1) as (w2 & evs & E2 & X2 & Tr & Ev & Pw & Rs & Ck
                         & Du & Fl & Te).
    assert (Tr1 : is_tracing (self w1) = is_tracing (self w)).
    { unfold is_tracing. now rewrite R1, P1. }
    exists w2. eexists. rewrite ticks_succ. unfold bind. rewrite E1.
    split; [exact E2|]. split.
    { rewrite X2, X1, <- app_assoc. reflexivity. }
    rewrite N2Nat.inj_succ. rewrite Tr1, K1, S1 in *.
    unfold port_writes, flushes, trace_events in *.
    rewrite evals_app, dumps_app, !filter_app, !length_app.
    rewrite Ev, Pw, Rs, Du, Fl, Te.
    replace (N.succ n =? 0)%N with false
      by (symmetry; apply N.eqb_neq; lia).
    destruct (is_tracing (self w)); cbn;
      repeat apply conj; try reflexivity; try assumption;
      try (rewrite Ck; destruct (n =? 0)%N; reflexivity); lia.
Qed.

(** ** Two processes at the same point of the simulation *)

Lemma same_simulation_refl (w : Sim St) : same_simulation w w.
Proof. repeat split. Qed.

Lemma same_simulation_sym (w1 w2 : Sim St) :
  same_simulation w1 w2 -> same_simulation w2 w1.
Proof. unfold same_simulation. intuition congruence. Qed.

Lemma same_simulation_trans (w1 w2 w3 : Sim St) :
  same_simulation w1 w2 -> same_simulation w2 w3 -> same_simulation w1 w3.
Proof. unfold same_simulation. intuition congruence. Qed.

Ltac same_history :=
  unfold port_writes in *;
  repeat rewrite ?evals_app, ?filter_app; cbn;
  repeat rewrite ?app_nil_r; repeat rewrite <- ?app_assoc; cbn;
  congruence.

Lemma tick_same (w1 w2 : Sim St) :
  same_simulation w1 w2 ->
  exists w1' w2',
    tick w1 = Ok (tt, w1') /\ tick w2 = Ok (tt, w2')
    /\ same_simulation w1' w2'.
Proof.
  destruct w1 as [[c1 ch1 [tr1|] d1 [|] t1] gf1 teo1 h1];
  destruct w2 as [[c2 ch2 [tr2|] d2 [|] t2] gf2 teo2 h2];
  unfold same_simulation; cbn [self m_core m_time_ps m_done m_changed
                               gotFinish history];
  intros (-> & -> & -> & -> & -> & He & Hp);
  (eexists; eexists; split; [cbn; reflexivity|];
   split; [cbn; reflexivity|]); cbn;
  repeat apply conj; try reflexivity; same_history.
Qed.

Lemma ticks_same (n : N) :
  forall w1 w2 : Sim St,
    same_simulation w1 w2 ->
    exists w1' w2',
      ticks n w1 = Ok (tt, w1') /\ ticks n w2 = Ok (tt, w2')
      /\ same_simulation w1' w2'.
Proof.
  induction n as [|n IH] using N.peano_ind; intros w1 w2 H.
  - exists w1, w2. auto.
  - destruct (tick_same w1 w2 H) as (v1 & v2 & E1 & E2 & Hv).
    destruct (IH v1 v2 Hv) as (u1 & u2 & F1 & F2 & Hu).
    exists u1, u2. rewrite !ticks_succ. unfold bind. rewrite E1, E2. auto.
Qed.

Lemma set_reset_same (v : Z) (w1 w2 : Sim St) :
  same_simulation w1 w2 ->
  exists w1' w2',
    core_set_reset v w1 = Ok (tt, w1') /\ core_set_reset v w2 = Ok (tt, w2')
    /\ same_simulation w1' w2'.
Proof.
  intros (Hc & Ht & Hd & Hch & Hg & He & Hp).
  rewrite !core_set_reset_effect. eexists. eexists.
  split; [reflexivity|]. split; [reflexivity|].
  unfold same_simulation. cbn. rewrite Hc.
  repeat apply conj; try assumption; try reflexivity; same_history.
Qed.

(** A call that only concerns the trace leaves the simulation where it
    stands. *)
Lemma trace_op_same (o : Op St) (w : Sim St) :
  is_trace_op o = true ->
  exists w', exec o w = Ok (tt, w') /\ same_simulation w w'.
Proof.
  intros Ho. destruct o; try discriminate; cbn [exec]; unfold trace.
  - destruct (m_trace (self w)) eqn:Em.
    + rewrite opentrace_present by congruence.
      exists w. split; [reflexivity|apply same_simulation_refl].
    + rewrite opentrace_absent by assumption.
      eexists. split; [reflexivity|].
      unfold same_simulation. cbn.
      repeat apply conj; try reflexivity; same_history.
  - destruct (m_trace (self w)) eqn:Em.
    + rewrite opentrace_present by congruence.
      exists w. split; [reflexivity|apply same_simulation_refl].
    + rewrite opentrace_absent by assumption.
      eexists. split; [reflexivity|].
      unfold same_simulation. cbn.
      repeat apply conj; try reflexivity; same_history.
  - eexists. split; [reflexivity|]. repeat split.
  - eexists. split; [reflexivity|]. repeat split.
  - destruct (m_trace (self w)) eqn:Em.
    + erewrite closetrace_present by eassumption.
      eexists. split; [reflexivity|].
      unfold same_simulation. cbn.
      repeat apply conj; try reflexivity; same_history.
    + rewrite closetrace_absent by assumption.
      exists w. split; [reflexivity|apply same_simulation_refl].
Qed.

(** Any other call does the same to both. *)
Lemma sim_op_same (o : Op St) (w1 w2 : Sim St) :
  is_trace_op o = false ->
  same_simulation w1 w2 ->
  exists w1' w2',
    exec o w1 = Ok (tt, w1') /\ exec o w2 = Ok (tt, w2')
    /\ same_simulation w1' w2'.
Proof.
  intros Ho H. destruct o; try discriminate; cbn [exec].
  - destruct H as (Hc & Ht & Hd & Hch & Hg & He & Hp).
    rewrite !eval_effect. eexists. eexists.
    split; [reflexivity|]. split; [reflexivity|].
    unfold same_simulation. cbn. rewrite Hc, Hg.
    repeat apply conj; try assumption; try reflexivity; same_history.
  - apply ticks_same. exact H.
  - destruct H as (Hc & Ht & Hd & Hch & Hg & He & Hp).
    unfold bind. rewrite !done_effect. eexists. eexists.
    split; [reflexivity|]. split; [reflexivity|].
    unfold same_simulation. cbn. rewrite Hd, Hg.
    repeat apply conj; try assumption; reflexivity.
  - destruct (set_reset_same 1 w1 w2 H) as (a1 & a2 & A1 & A2 & Ha).
    destruct (tick_same a1 a2 Ha) as (b1 & b2 & B1 & B2 & Hb).
    destruct (set_reset_same 0 b1 b2 Hb) as (c1 & c2 & C1 & C2 & Hc).
    exists c1, c2. unfold reset, bind. rewrite A1, A2, B1, B2. auto.
  - destruct H as (Hc & Ht & Hd & Hch & Hg & He & Hp).
    eexists. eexists. split; [reflexivity|]. split; [reflexivity|].
    unfold same_simulation. cbn. rewrite Hc.
    repeat apply conj; try assumption; reflexivity.
  - destruct H as (Hc & Ht & Hd & Hch & Hg & He & Hp).
    eexists. eexists. split; [reflexivity|]. split; [reflexivity|].
    unfold same_simulation. cbn.
    repeat apply conj; try assumption; reflexivity.
Qed.


Lemma atoms_do_not_raise (ops : list (Op St)) :
  forallb (fun o => negb (raises_finish o)) ops = true ->
  Forall (fun a => a <> AGotFinish true) (flat_map atoms ops).
Proof.
  induction ops as [|o ops IH]; cbn [forallb flat_map]; intros H.
  - constructor.
  - apply andb_true_iff in H as [Ho H]. apply Forall_app. split; [|auto].
    destruct o; cbn [atoms]; repeat constructor; try discriminate.
    + apply Forall_forall. intros a Ha.
      apply repeat_spec in Ha. subst. discriminate.
    + destruct b; [discriminate|]. discriminate.
Qed.

End Steps.

(** * More properties of the wrapper *)

Section MoreProperties.

Context {St : Type} {VA : Model St}.

(** X1.  The trace is invisible to the simulation.  A program and the
    same program without its [opentrace], [trace], [pausetrace] and
    [closetrace] calls leave the same model, time, [m_done], [m_changed]
    and termination signal, after the same writes to the inputs and the
    same evaluations. *)
Theorem tracing_is_invisible (ops : list (Op St)) (w1 w2 : Sim St) :
  same_simulation w1 w2 ->
  exists w1' w2',
    run ops w1 = Ok (tt, w1')
    /\ run (strip_trace_ops ops) w2 = Ok (tt, w2')
    /\ same_simulation w1' w2'.
Proof.
  revert w1 w2. induction ops as [|o ops IH]; intros w1 w2 H.
  - exists w1, w2. auto.
  - cbn [strip_trace_ops filter run].
    destruct (is_trace_op o) eqn:Ho; cbn [negb].
    + destruct (trace_op_same o w1 Ho) as (v1 & E1 & Hv).
      destruct (IH v1 w2) as (u1 & u2 & F1 & F2 & Hu).
      { eapply same_simulation_trans; [|exact H].
        apply same_simulation_sym. exact Hv. }
      exists u1, u2. unfold bind. rewrite E1. auto.
    + destruct (sim_op_same o w1 w2 Ho H) as (v1 & v2 & E1 & E2 & Hv).
      destruct (IH v1 v2 Hv) as (u1 & u2 & F1 & F2 & Hu).
      exists u1, u2. cbn [run]. unfold bind. rewrite E1, E2. auto.
Qed.

(** X2.  In every program on a new wrapper that does not run the time
    past 2^64, also one that pauses, closes and reopens traces, the
    samples are written at strictly increasing time stamps, all after 0
    and none after the current time. *)
Theorem samples_increase_in_every_program (changed0 : bool)
    (ops : list (Op St)) :
  Z.of_N (tick_calls ops) * (H1 + H2) < UINT64_MOD ->
  exists w,
    run ops (TESTB_new changed0) = Ok (tt, w)
    /\ strictly_increasing (dumps (history w)) = true
    /\ Forall (fun d => 0 < d <= m_time_ps (self w)) (dumps (history w)).
Proof.
  intros Hfit. rewrite run_as_atoms.
  destruct (run_atoms_dumps (flat_map atoms ops) (TESTB_new changed0))
    as (w & E & (_ & Hs & Hb) & _).
  - unfold dump_invariant. cbn.
    repeat apply conj; [lia | reflexivity | constructor].
  - rewrite <- (tick_atoms_calls ops), nat_N_Z in Hfit. exact Hfit.
  - exists w. auto.
Qed.

(** X3.  In every program on a new wrapper the calls on the sink follow
    its life cycle: created only when there is none, then registered,
    given resolution and unit, opened; written and flushed only while
    open; closed, then deleted.  The cycle stands at open exactly when
    [m_trace] is set, and the sink held is then registered at depth 99
    in ps with its file open. *)
Theorem sink_life_cycle (changed0 : bool) (ops : list (Op St)) :
  exists w,
    run ops (TESTB_new changed0) = Ok (tt, w)
    /\ sink_run SinkNone (history w)
       = Some (match m_trace (self w) with
               | Some _ => SinkOpen
               | None => SinkNone
               end)
    /\ match m_trace (self w) with
       | Some tr =>
           exists vcdname,
             tr = {| tr_levels := Some 99; tr_resolution := Some "ps"%string;
                     tr_unit := Some "ps"%string;
                     tr_file := Some vcdname |}
       | None => True
       end.
Proof.
  destruct (run_invariant sink_invariant sink_invariant_step ops
              (TESTB_new changed0) (sink_invariant_new changed0))
    as (w & E & Hr & Hs).
  exists w. split; [exact E|]. split; [exact Hr|].
  destruct (m_trace (self w)) as [tr|]; [|exact I].
  apply Hs. reflexivity.
Qed.

(** X4.  Destroying the wrapper after any program leaves no trace file
    open: without a sink the destructor makes no call; with one it
    closes the file, and does not delete the sink. *)
Theorem destructor_closes_file (changed0 : bool) (ops : list (Op St)) :
  exists w r,
    run ops (TESTB_new changed0) = Ok (tt, w)
    /\ TESTB_delete w = Ok r
    /\ match m_trace (self w) with
       | Some tr =>
           rem_history r = history w ++ [EvClose]
           /\ sink_run SinkNone (rem_history r) = Some SinkClosed
           /\ exists tr', rem_trace r = Some tr' /\ tr_file tr' = None
       | None =>
           rem_history r = history w
           /\ sink_run SinkNone (rem_history r) = Some SinkNone
           /\ rem_trace r = None
       end.
Proof.
  destruct (run_invariant sink_invariant sink_invariant_step ops
              (TESTB_new changed0) (sink_invariant_new changed0))
    as (w & E & Hr & _).
  exists w. unfold sink_of in Hr.
  destruct w as [[c ch [tr|] d p t] gf teo h]; cbn in Hr;
    (eexists; split; [exact E|]; split; [reflexivity|]); cbn.
  - split; [reflexivity|]. split.
    + rewrite sink_run_app, Hr. reflexivity.
    + eexists. split; reflexivity.
  - repeat apply conj; [reflexivity|exact Hr|reflexivity].
Qed.

(** X5.  With a sink open and not paused, N ticks write exactly 3 N
    samples and flush exactly N times, and make no other call on the
    sink, for every N. *)
Theorem traced_ticks_write_3n (w : Sim St) (n : N) :
  is_tracing (self w) = true ->
  exists w' evs,
    ticks n w = Ok (tt, w')
    /\ history w' = history w ++ evs
    /\ List.length (dumps evs) = (3 * N.to_nat n)%nat
    /\ flushes evs = N.to_nat n
    /\ List.length (trace_events evs) = (4 * N.to_nat n)%nat
    /\ is_tracing (self w') = true.
Proof.
  intros Tr.
  destruct (ticks_counts n w)
    as (w' & evs & E & X & Tr' & _ & _ & _ & _ & Du & Fl & Te).
  rewrite Tr in *. exists w', evs. repeat apply conj; assumption.
Qed.



(** X8.  [done()] does not report an end that was not signalled: if the
    design never executes [$finish] and the program never raises
    [Verilated::gotFinish], then after the program on a new wrapper
    [m_done] is false and [done()] returns false. *)
Theorem done_false_until_finish (changed0 : bool) (ops : list (Op St)) :
  never_finishes VA ->
  forallb (fun o => negb (raises_finish o)) ops = true ->
  exists w,
    run ops (TESTB_new changed0) = Ok (tt, w)
    /\ m_done (self w) = false
    /\ done w = Ok (false, w).
Proof.
  intros Hn Hops. rewrite run_as_atoms.
  destruct (run_atoms_invariant
              (fun w => gotFinish w = false /\ m_done (self w) = false)
              (fun a => a <> AGotFinish true)
              (fun a w Ha Hw => quiet_step a w Hn Ha Hw)
              (flat_map atoms ops) (TESTB_new changed0)
              (atoms_do_not_raise ops Hops) (conj eq_refl eq_refl))
    as (w & E & Hg & Hd).
  exists w. split; [exact E|]. split; [exact Hd|].
  rewrite done_effect, Hg, Hd.
  destruct w as [[c ch tr d p t] gf teo h]. cbn in *. subst. reflexivity.
Qed.

(** X9.  [closetrace()] undoes [opentrace()]: on a wrapper without a
    sink, opening and closing leaves the wrapper as it was but for
    [m_paused_trace], which is cleared; the sink was created, opened,
    closed and deleted once.  A second [closetrace()] does nothing. *)
Theorem closetrace_undoes_opentrace (w : Sim St) (vcdname : string)
    (depth : Z) :
  m_trace (self w) = None ->
  exists w1 w2,
    opentrace vcdname depth w = Ok (tt, w1)
    /\ closetrace w1 = Ok (tt, w2)
    /\ closetrace w2 = Ok (tt, w2)
    /\ self w2 = set_m_paused_trace false (self w)
    /\ history w2
       = history w
         ++ [EvTraceNew; EvCoreTrace 99; EvSetTimeResolution "ps";
             EvSetTimeUnit "ps"; EvOpen vcdname; EvClose; EvTraceDelete].
Proof.
  intros Em. rewrite (opentrace_absent _ _ _ Em).
  eexists. eexists. split; [reflexivity|].
  erewrite closetrace_present by reflexivity.
  split; [reflexivity|].
  rewrite closetrace_absent by reflexivity.
  split; [reflexivity|]. cbn.
  destruct w as [[c ch tr d p t] gf teo h]. cbn in *. subst.
  split; [reflexivity|]. rewrite <- app_assoc. reflexivity.
Qed.

(** X10.  A wrapper writes to another file only after [closetrace()]:
    with a sink open, [opentrace(other)] changes nothing, while
    [closetrace()] followed by [opentrace(other)] leaves a new sink
    writing [other], with tracing not paused, and the time as it was. *)
Theorem reopen_needs_close (w : Sim St) (tr : TRACECLASS)
    (other : string) (depth : Z) :
  m_trace (self w) = Some tr ->
  opentrace other depth w = Ok (tt, w)
  /\ exists w',
       run [OpClosetrace; OpOpentrace other depth] w = Ok (tt, w')
       /\ m_trace (self w')
          = Some {| tr_levels := Some 99; tr_resolution := Some "ps"%string;
                    tr_unit := Some "ps"%string; tr_file := Some other |}
       /\ m_paused_trace (self w') = false
       /\ m_time_ps (self w') = m_time_ps (self w)
       /\ history w'
          = history w
            ++ [EvClose; EvTraceDelete; EvTraceNew; EvCoreTrace 99;
                EvSetTimeResolution "ps"; EvSetTimeUnit "ps"; EvOpen other].
Proof.
  intros Em. split.
  - apply opentrace_present. congruence.
  - cbn [run exec]. unfold bind.
    rewrite (closetrace_present _ Em).
    rewrite opentrace_absent by reflexivity.
    eexists. split; [reflexivity|]. cbn.
    repeat apply conj; try reflexivity.
    rewrite <- app_assoc. reflexivity.
Qed.


End MoreProperties.

(** X1, a traced, paused and reset run against the bare run. *)
Lemma tracing_is_invisible_witness :
  exists w1 w2 : Sim unit,
    run [OpOpentrace "t.vcd" 99; OpTicks 2; OpPausetrace true; OpReset;
         OpClosetrace] (TESTB_new false) = Ok (tt, w1)
    /\ run [OpTicks 2; OpReset] (TESTB_new false) = Ok (tt, w2)
    /\ m_core (self w1) = m_core (self w2)
    /\ m_time_ps (self w1) = m_time_ps (self w2).
Proof.
  destruct (tracing_is_invisible (VA := idle)
              [OpOpentrace "t.vcd" 99; OpTicks 2; OpPausetrace true; OpReset;
               OpClosetrace] (TESTB_new false) (TESTB_new false))
    as (w1 & w2 & E1 & E2 & Hc & Ht & _).
  - unfold same_simulation. repeat apply conj; reflexivity.
  - exists w1, w2. repeat apply conj; assumption.
Defined.

(** X2, a run that pauses, closes and reopens its trace. *)
Lemma samples_increase_in_every_program_witness :
  exists w : Sim unit,
    run [OpOpentrace "a" 99; OpTicks 2; OpPausetrace true; OpTicks 1;
         OpPausetrace false; OpClosetrace; OpTrace "b"; OpReset]
        (TESTB_new false) = Ok (tt, w)
    /\ strictly_increasing (dumps (history w)) = true.
Proof.
  destruct (samples_increase_in_every_program (VA := idle) false
              [OpOpentrace "a" 99; OpTicks 2; OpPausetrace true; OpTicks 1;
               OpPausetrace false; OpClosetrace; OpTrace "b"; OpReset])
    as (w & E & Hs & _).
  - reflexivity.
  - exists w. split; assumption.
Defined.

(** X5, four ticks after opening a trace. *)
Lemma traced_ticks_write_3n_witness :
  exists w0 w' : Sim unit,
    opentrace "t.vcd" 99 (TESTB_new false) = Ok (tt, w0)
    /\ ticks 4 w0 = Ok (tt, w')
    /\ List.length (dumps (history w')) = 12%nat.
Proof.
  eexists.
  match goal with |- exists w', ?o = Ok (tt, ?w0) /\ _ =>
    assert (E0 : o = Ok (tt, w0)) by (vm_compute; reflexivity);
    destruct (traced_ticks_write_3n (VA := idle) w0 4)
      as (w' & evs & E & X & D & _); [reflexivity|]
  end.
  exists w'. split; [exact E0|]. split; [exact E|].
  rewrite X, dumps_app, length_app, D. reflexivity.
Defined.

(** X8, the idle design: reset, then [done()]. *)
Lemma done_false_until_finish_witness :
  exists w : Sim unit,
    run [OpReset; OpDone; OpTicks 3; OpGotFinish false] (TESTB_new false)
    = Ok (tt, w)
    /\ done w = Ok (false, w).
Proof.
  destruct (done_false_until_finish (VA := idle) false
              [OpReset; OpDone; OpTicks 3; OpGotFinish false])
    as (w & E & _ & D).
  - intros c. reflexivity.
  - reflexivity.
  - exists w. split; assumption.
Defined.

(** X9, on a new wrapper. *)
Lemma closetrace_undoes_opentrace_witness :
  exists w1 w2 : Sim unit,
    opentrace "a" 99 (TESTB_new false) = Ok (tt, w1)
    /\ closetrace w1 = Ok (tt, w2)
    /\ self w2 = self (TESTB_new false).
Proof.
  destruct (closetrace_undoes_opentrace (TESTB_new (VA := idle) false) "a" 99)
    as (w1 & w2 & E1 & E2 & _ & S2 & _); [reflexivity|].
  exists w1, w2. repeat apply conj; assumption.
Defined.

(** X10, a wrapper tracing into "a" that is asked for "b". *)
Lemma reopen_needs_close_witness :
  exists w w' : Sim unit,
    opentrace "a" 99 (TESTB_new false) = Ok (tt, w)
    /\ opentrace "b" 99 w = Ok (tt, w)
    /\ run [OpClosetrace; OpOpentrace "b" 99] w = Ok (tt, w')
    /\ option_map tr_file (m_trace (self w')) = Some (Some "b"%string).
Proof.
  eexists.
  match goal with |- exists w', ?o = Ok (tt, ?w0) /\ _ =>
    assert (E0 : o = Ok (tt, w0)) by (vm_compute; reflexivity);
    destruct (reopen_needs_close (VA := idle) w0 (trace_opened "a") "b" 99)
      as (K & w' & E & Em & _); [reflexivity|]
  end.
  exists w'. repeat apply conj; try assumption.
  rewrite Em. reflexivity.
Defined.
